(** * UETPFCore: delta persistence, spec registries and SpecPack loading

    A shallow embedding of the engine-independent logic of the repository:

    - [DeltaTypes.h]: the world cell key and the six delta records;
    - [FileDeltaStore.cpp]: the cell-keyed, append-only delta cache and its
      flush;
    - [SurfaceQuerySubsystem.cpp], [EnvironmentSubsystem.cpp]: the runtime
      spec registries and their resolution functions;
    - [SpecPackLoader.cpp]: loading of a SpecPack file.

    Conventions.  A [TMap<K,V>] is a [gmap K V], a [TSet<K>] a [gset K], a
    [TArray<T>] a [list T].  Member functions take the object they mutate as
    an explicit state argument and return the new state; an output argument
    passed by reference is returned next to the result.  An [int32] member
    that is only stored and compared is a [Z].  A [float] or [double] member
    is only ever stored and copied by the code modelled here, so it is kept
    as its IEEE-754 bit pattern (a [Z]); no floating-point arithmetic is
    performed on it.  Logging ([UE_LOG]) has no counterpart.

    The closed-form solar and atmosphere formulas ([SolarSystemSubsystem.cpp],
    [GlobalAtmosphereField.cpp]) compute in binary64 and binary32 arithmetic
    with the engine's [Fmod], [Sin], [Cos] and [Exp]; they are not part of
    this development. *)

From Stdlib Require Import ZArith List String Bool Lia.
From stdpp Require Import base option list strings pretty gmap sets.

Local Open Scope Z_scope.

(* ===================================================================== *)
(** * Engine value types *)
(* ===================================================================== *)

(** [FString] and [FName] are strings; [NAME_None] is the empty name. *)
Definition FString := string.
Definition FName := string.
Definition NAME_None : FName := EmptyString.

(** Bit patterns of [float] (binary32) and [double] (binary64) values. *)
Definition float := Z.
Definition double := Z.

(** [FGuid]: four unsigned 32-bit words. *)
Record FGuid := mkGuid { GuidA : Z; GuidB : Z; GuidC : Z; GuidD : Z }.

(** [FVector], [FQuat] and [FTransform] (double precision components). *)
Record FVector := mkVector { VecX : double; VecY : double; VecZ : double }.
Record FQuat := mkQuat { QuatX : double; QuatY : double; QuatZ : double; QuatW : double }.
Record FTransform := mkTransform {
  Rotation : FQuat;
  Translation : FVector;
  Scale3D : FVector
}.

Definition double_zero : double := 0x0.
Definition double_one : double := 0x3ff0000000000000.

Definition ZeroVector : FVector := mkVector double_zero double_zero double_zero.
Definition OneVector : FVector := mkVector double_one double_one double_one.
Definition FGuid_default : FGuid := mkGuid 0 0 0 0.
Definition FTransform_Identity : FTransform :=
  mkTransform (mkQuat double_zero double_zero double_zero double_one) ZeroVector OneVector.

(** [FDateTime]: a tick count. *)
Definition FDateTime := Z.

(** The [/] operator of [FString] used to build paths. *)
Definition PathJoin (a b : FString) : FString := a +:+ "/" +:+ b.

(* ===================================================================== *)
(** * DeltaTypes.h *)
(* ===================================================================== *)

Inductive EDeltaType :=
| EDeltaType_SurfaceTile
| EDeltaType_Fracture
| EDeltaType_Transform
| EDeltaType_Spawn
| EDeltaType_Remove
| EDeltaType_Assembly.

(** ** FWorldCellKey *)

Record FWorldCellKey := mkCellKey { X : Z; Y : Z; LOD : Z }.

(** [operator==] compares the three components, which is equality of the
    record; [GetTypeHash] is compatible with it, so a [TMap] keyed by
    [FWorldCellKey] is a finite map on this type. *)
Global Instance FWorldCellKey_eq_dec : EqDecision FWorldCellKey :=
  ltac:(solve_decision).

Global Instance FWorldCellKey_countable : Countable FWorldCellKey :=
  inj_countable' (fun k => (X k, Y k, LOD k))
                 (fun t => mkCellKey t.1.1 t.1.2 t.2)
                 (fun k => match k with mkCellKey _ _ _ => eq_refl end).

(** [ToString]: [FString::Printf(TEXT("(%d,%d,LOD%d)"), X, Y, LOD)]. *)
Definition FWorldCellKey_ToString (k : FWorldCellKey) : FString :=
  "(" +:+ pretty (X k) +:+ "," +:+ pretty (Y k) +:+ ",LOD" +:+ pretty (LOD k) +:+ ")".

Inductive ESurfaceDeltaOperation :=
| Op_Set | Op_Add | Op_Subtract | Op_Multiply | Op_Max | Op_Min.

Inductive ESurfaceDeltaChannel :=
| Ch_SnowDepth | Ch_SnowCompaction | Ch_Wetness | Ch_TemperatureDelta
| Ch_Toxicity | Ch_CustomA | Ch_CustomB.

(** [FDamageSpecId] wraps an [FName]. *)
Record FDamageSpecId := mkDamageSpecId { DamageSpecId_Id : FName }.

(** ** The six delta records.  Each struct lives in a module of its own so
    that the members keep the names they have in the header. *)

Module FSurfaceTileDelta.
Record t := mk {
  CellKey : FWorldCellKey;
  TileIndex : Z;
  WorldLocation : FVector;
  Radius : float;
  Channel : ESurfaceDeltaChannel;
  Operation : ESurfaceDeltaOperation;
  Value : float;
  Timestamp : double;
  AuthorPlayerId : FName
}.
(** The member initialisers of the header. *)
Definition default : t :=
  mk (mkCellKey 0 0 0) 0 ZeroVector 0x42480000 (* 50.0f *)
     Ch_SnowDepth Op_Add 0x0 double_zero NAME_None.
End FSurfaceTileDelta.

Module FFractureDelta.
Record t := mk {
  CellKey : FWorldCellKey;
  ActorGuid : FGuid;
  DamageSpecId : FDamageSpecId;
  BrokenChunks : list Z;
  bIsSleeping : bool;
  Timestamp : double
}.
Definition default : t :=
  mk (mkCellKey 0 0 0) FGuid_default (mkDamageSpecId NAME_None) [] true double_zero.
End FFractureDelta.

Module FTransformDelta.
Record t := mk {
  CellKey : FWorldCellKey;
  ActorGuid : FGuid;
  Transform : FTransform;
  bPhysicsEnabled : bool;
  bIsSleeping : bool;
  Timestamp : double
}.
Definition default : t :=
  mk (mkCellKey 0 0 0) FGuid_default FTransform_Identity false true double_zero.
End FTransformDelta.

Module FSpawnDelta.
Record t := mk {
  CellKey : FWorldCellKey;
  ActorGuid : FGuid;
  PCGInstanceId : Z;
  ActorClass : FString;
  SpawnTransform : FTransform;
  Timestamp : double
}.
Definition default : t :=
  mk (mkCellKey 0 0 0) FGuid_default (-1) EmptyString FTransform_Identity double_zero.
End FSpawnDelta.

Module FRemoveDelta.
Record t := mk {
  CellKey : FWorldCellKey;
  ActorGuid : FGuid;
  RemovalReason : FName;
  Timestamp : double
}.
Definition default : t :=
  mk (mkCellKey 0 0 0) FGuid_default NAME_None double_zero.
End FRemoveDelta.

Module FAssemblyDelta.
Record t := mk {
  CellKey : FWorldCellKey;
  AssemblyGuid : FGuid;
  AssemblySpecId : FName;
  Transform : FTransform;
  bIsSleeping : bool;
  DamagedParts : list Z;
  StateVariables : gmap FName float;
  Timestamp : double
}.
Definition default : t :=
  mk (mkCellKey 0 0 0) FGuid_default NAME_None FTransform_Identity true [] ∅ double_zero.
End FAssemblyDelta.

(** A delta record of any of the six types, tagged by its [EDeltaType]. *)
Inductive FDelta :=
| SurfaceTile (Delta : FSurfaceTileDelta.t)
| Fracture (Delta : FFractureDelta.t)
| Transform (Delta : FTransformDelta.t)
| Spawn (Delta : FSpawnDelta.t)
| Remove (Delta : FRemoveDelta.t)
| Assembly (Delta : FAssemblyDelta.t).

Definition DeltaType (d : FDelta) : EDeltaType :=
  match d with
  | SurfaceTile _ => EDeltaType_SurfaceTile
  | Fracture _ => EDeltaType_Fracture
  | Transform _ => EDeltaType_Transform
  | Spawn _ => EDeltaType_Spawn
  | Remove _ => EDeltaType_Remove
  | Assembly _ => EDeltaType_Assembly
  end.

Definition DeltaCellKey (d : FDelta) : FWorldCellKey :=
  match d with
  | SurfaceTile x => FSurfaceTileDelta.CellKey x
  | Fracture x => FFractureDelta.CellKey x
  | Transform x => FTransformDelta.CellKey x
  | Spawn x => FSpawnDelta.CellKey x
  | Remove x => FRemoveDelta.CellKey x
  | Assembly x => FAssemblyDelta.CellKey x
  end.

(** ** The reflected members of the delta records.

    Every member of the six structs is a [UPROPERTY]; this is the list that
    the engine's reflection (and so [FJsonObjectConverter::UStructToJsonObject]
    in the flush task) sees: name and value, in declaration order. *)

Inductive UPropertyValue :=
| PV_CellKey (v : FWorldCellKey)
| PV_Guid (v : FGuid)
| PV_Int32 (v : Z)
| PV_Int64 (v : Z)
| PV_Float (v : float)
| PV_Double (v : double)
| PV_Bool (v : bool)
| PV_Name (v : FName)
| PV_Vector (v : FVector)
| PV_Transform (v : FTransform)
| PV_Channel (v : ESurfaceDeltaChannel)
| PV_Operation (v : ESurfaceDeltaOperation)
| PV_DamageSpecId (v : FDamageSpecId)
| PV_Int32Array (v : list Z)
| PV_SoftClass (v : FString)
| PV_NameFloatMap (v : gmap FName float).

Definition UProperties (d : FDelta) : list (FString * UPropertyValue) :=
  match d with
  | SurfaceTile x =>
      [ ("CellKey", PV_CellKey (FSurfaceTileDelta.CellKey x));
        ("TileIndex", PV_Int32 (FSurfaceTileDelta.TileIndex x));
        ("WorldLocation", PV_Vector (FSurfaceTileDelta.WorldLocation x));
        ("Radius", PV_Float (FSurfaceTileDelta.Radius x));
        ("Channel", PV_Channel (FSurfaceTileDelta.Channel x));
        ("Operation", PV_Operation (FSurfaceTileDelta.Operation x));
        ("Value", PV_Float (FSurfaceTileDelta.Value x));
        ("Timestamp", PV_Double (FSurfaceTileDelta.Timestamp x));
        ("AuthorPlayerId", PV_Name (FSurfaceTileDelta.AuthorPlayerId x)) ]
  | Fracture x =>
      [ ("CellKey", PV_CellKey (FFractureDelta.CellKey x));
        ("ActorGuid", PV_Guid (FFractureDelta.ActorGuid x));
        ("DamageSpecId", PV_DamageSpecId (FFractureDelta.DamageSpecId x));
        ("BrokenChunks", PV_Int32Array (FFractureDelta.BrokenChunks x));
        ("bIsSleeping", PV_Bool (FFractureDelta.bIsSleeping x));
        ("Timestamp", PV_Double (FFractureDelta.Timestamp x)) ]
  | Transform x =>
      [ ("CellKey", PV_CellKey (FTransformDelta.CellKey x));
        ("ActorGuid", PV_Guid (FTransformDelta.ActorGuid x));
        ("Transform", PV_Transform (FTransformDelta.Transform x));
        ("bPhysicsEnabled", PV_Bool (FTransformDelta.bPhysicsEnabled x));
        ("bIsSleeping", PV_Bool (FTransformDelta.bIsSleeping x));
        ("Timestamp", PV_Double (FTransformDelta.Timestamp x)) ]
  | Spawn x =>
      [ ("CellKey", PV_CellKey (FSpawnDelta.CellKey x));
        ("ActorGuid", PV_Guid (FSpawnDelta.ActorGuid x));
        ("PCGInstanceId", PV_Int64 (FSpawnDelta.PCGInstanceId x));
        ("ActorClass", PV_SoftClass (FSpawnDelta.ActorClass x));
        ("SpawnTransform", PV_Transform (FSpawnDelta.SpawnTransform x));
        ("Timestamp", PV_Double (FSpawnDelta.Timestamp x)) ]
  | Remove x =>
      [ ("CellKey", PV_CellKey (FRemoveDelta.CellKey x));
        ("ActorGuid", PV_Guid (FRemoveDelta.ActorGuid x));
        ("RemovalReason", PV_Name (FRemoveDelta.RemovalReason x));
        ("Timestamp", PV_Double (FRemoveDelta.Timestamp x)) ]
  | Assembly x =>
      [ ("CellKey", PV_CellKey (FAssemblyDelta.CellKey x));
        ("AssemblyGuid", PV_Guid (FAssemblyDelta.AssemblyGuid x));
        ("AssemblySpecId", PV_Name (FAssemblyDelta.AssemblySpecId x));
        ("Transform", PV_Transform (FAssemblyDelta.Transform x));
        ("bIsSleeping", PV_Bool (FAssemblyDelta.bIsSleeping x));
        ("DamagedParts", PV_Int32Array (FAssemblyDelta.DamagedParts x));
        ("StateVariables", PV_NameFloatMap (FAssemblyDelta.StateVariables x));
        ("Timestamp", PV_Double (FAssemblyDelta.Timestamp x)) ]
  end.

(** What a record "carries", read off its reflected members. *)

Definition isCellKey (p : FString * UPropertyValue) : bool :=
  match p with (n, PV_CellKey _) => String.eqb n "CellKey" | _ => false end.
Definition isGuid (p : FString * UPropertyValue) : bool :=
  match p with (_, PV_Guid _) => true | _ => false end.
Definition isTimestamp (p : FString * UPropertyValue) : bool :=
  match p with (n, PV_Double _) => String.eqb n "Timestamp" | _ => false end.
Definition isChannel (p : FString * UPropertyValue) : bool :=
  match p with (_, PV_Channel _) => true | _ => false end.
Definition isOperation (p : FString * UPropertyValue) : bool :=
  match p with (_, PV_Operation _) => true | _ => false end.
Definition isValue (p : FString * UPropertyValue) : bool :=
  match p with (n, PV_Float _) => String.eqb n "Value" | _ => false end.
Definition isTransform (p : FString * UPropertyValue) : bool :=
  match p with (_, PV_Transform _) => true | _ => false end.
Definition isDamagedParts (p : FString * UPropertyValue) : bool :=
  match p with (n, PV_Int32Array _) => String.eqb n "DamagedParts" | _ => false end.
Definition isBrokenChunks (p : FString * UPropertyValue) : bool :=
  match p with (n, PV_Int32Array _) => String.eqb n "BrokenChunks" | _ => false end.
Definition isRemovalReason (p : FString * UPropertyValue) : bool :=
  match p with (n, PV_Name _) => String.eqb n "RemovalReason" | _ => false end.

Definition carries (f : FString * UPropertyValue -> bool) (d : FDelta) : bool :=
  existsb f (UProperties d).

Definition carriesCellKey := carries isCellKey.
Definition carriesEntityGuid := carries isGuid.
Definition carriesTimestamp := carries isTimestamp.
Definition carriesChannelOperationValue (d : FDelta) : bool :=
  carries isChannel d && carries isOperation d && carries isValue d.
Definition carriesTransform := carries isTransform.
Definition carriesDamagedPartList := carries isDamagedParts.
Definition carriesBrokenChunkList := carries isBrokenChunks.
Definition carriesRemovalReason := carries isRemovalReason.

(** The payload as the specification lists it: channel+operation+value, or
    a transform, or a damaged-part list. *)
Definition carriesListedPayload (d : FDelta) : bool :=
  carriesChannelOperationValue d || carriesTransform d || carriesDamagedPartList d.

(* ===================================================================== *)
(** * FileDeltaStore.h / FileDeltaStore.cpp *)
(* ===================================================================== *)

(** The members of [UFileDeltaStore]. *)
Record UFileDeltaStore := mkStore {
  CurrentWorldName : FString;
  BaseSaveDirectory : FString;
  bIsInitialized : bool;
  SurfaceDeltas : gmap FWorldCellKey (list FSurfaceTileDelta.t);
  FractureDeltas : gmap FWorldCellKey (list FFractureDelta.t);
  TransformDeltas : gmap FWorldCellKey (list FTransformDelta.t);
  SpawnDeltas : gmap FWorldCellKey (list FSpawnDelta.t);
  RemoveDeltas : gmap FWorldCellKey (list FRemoveDelta.t);
  AssemblyDeltas : gmap FWorldCellKey (list FAssemblyDelta.t);
  DirtyCells : gset FWorldCellKey
}.

(** The constructor: empty caches, not initialised.  [ProjectSavedDir] is
    the value of [FPaths::ProjectSavedDir()]. *)
Definition UFileDeltaStore_new (ProjectSavedDir : FString) : UFileDeltaStore :=
  mkStore EmptyString (PathJoin ProjectSavedDir "GameSaveData") false ∅ ∅ ∅ ∅ ∅ ∅ ∅.

(** [Initialize].  The two arguments are the answers of the platform file
    layer ([DirectoryExists], [CreateDirectoryTree]) for a directory. *)
Definition Initialize (DirectoryExists CreateDirectoryTree : FString -> bool)
    (s : UFileDeltaStore) (WorldName : FString) : bool * UFileDeltaStore :=
  let WorldDir := PathJoin (BaseSaveDirectory s) WorldName in
  if negb (DirectoryExists WorldDir) && negb (CreateDirectoryTree WorldDir)
  then (false,
        mkStore WorldName (BaseSaveDirectory s) (bIsInitialized s)
                (SurfaceDeltas s) (FractureDeltas s) (TransformDeltas s)
                (SpawnDeltas s) (RemoveDeltas s) (AssemblyDeltas s) (DirtyCells s))
  else (true,
        mkStore WorldName (BaseSaveDirectory s) true
                (SurfaceDeltas s) (FractureDeltas s) (TransformDeltas s)
                (SpawnDeltas s) (RemoveDeltas s) (AssemblyDeltas s) (DirtyCells s)).

(** [Map.FindOrAdd(Key).Add(Delta)]: the array kept for [Key] (a fresh empty
    one when the key is absent) gets [Delta] at its end. *)
Definition FindOrAdd_Add {A : Type} (Map : gmap FWorldCellKey (list A))
    (Key : FWorldCellKey) (Delta : A) : gmap FWorldCellKey (list A) :=
  <[ Key := match Map !! Key with Some Found => Found | None => [] end ++ [Delta] ]> Map.

(** [if (Found = Map.Find(Key)) return *Found; return TArray()]. *)
Definition Find_or_empty {A : Type} (Map : gmap FWorldCellKey (list A))
    (Key : FWorldCellKey) : list A :=
  match Map !! Key with Some Found => Found | None => [] end.

(** ** IDeltaStore: the append methods *)

Definition AppendSurfaceDelta (s : UFileDeltaStore) (Delta : FSurfaceTileDelta.t) : UFileDeltaStore :=
  mkStore (CurrentWorldName s) (BaseSaveDirectory s) (bIsInitialized s)
          (FindOrAdd_Add (SurfaceDeltas s) (FSurfaceTileDelta.CellKey Delta) Delta)
          (FractureDeltas s) (TransformDeltas s) (SpawnDeltas s) (RemoveDeltas s)
          (AssemblyDeltas s)
          ({[ FSurfaceTileDelta.CellKey Delta ]} ∪ DirtyCells s).

Definition AppendFractureDelta (s : UFileDeltaStore) (Delta : FFractureDelta.t) : UFileDeltaStore :=
  mkStore (CurrentWorldName s) (BaseSaveDirectory s) (bIsInitialized s)
          (SurfaceDeltas s)
          (FindOrAdd_Add (FractureDeltas s) (FFractureDelta.CellKey Delta) Delta)
          (TransformDeltas s) (SpawnDeltas s) (RemoveDeltas s) (AssemblyDeltas s)
          ({[ FFractureDelta.CellKey Delta ]} ∪ DirtyCells s).

Definition AppendTransformDelta (s : UFileDeltaStore) (Delta : FTransformDelta.t) : UFileDeltaStore :=
  mkStore (CurrentWorldName s) (BaseSaveDirectory s) (bIsInitialized s)
          (SurfaceDeltas s) (FractureDeltas s)
          (FindOrAdd_Add (TransformDeltas s) (FTransformDelta.CellKey Delta) Delta)
          (SpawnDeltas s) (RemoveDeltas s) (AssemblyDeltas s)
          ({[ FTransformDelta.CellKey Delta ]} ∪ DirtyCells s).

Definition AppendSpawnDelta (s : UFileDeltaStore) (Delta : FSpawnDelta.t) : UFileDeltaStore :=
  mkStore (CurrentWorldName s) (BaseSaveDirectory s) (bIsInitialized s)
          (SurfaceDeltas s) (FractureDeltas s) (TransformDeltas s)
          (FindOrAdd_Add (SpawnDeltas s) (FSpawnDelta.CellKey Delta) Delta)
          (RemoveDeltas s) (AssemblyDeltas s)
          ({[ FSpawnDelta.CellKey Delta ]} ∪ DirtyCells s).

Definition AppendRemoveDelta (s : UFileDeltaStore) (Delta : FRemoveDelta.t) : UFileDeltaStore :=
  mkStore (CurrentWorldName s) (BaseSaveDirectory s) (bIsInitialized s)
          (SurfaceDeltas s) (FractureDeltas s) (TransformDeltas s) (SpawnDeltas s)
          (FindOrAdd_Add (RemoveDeltas s) (FRemoveDelta.CellKey Delta) Delta)
          (AssemblyDeltas s)
          ({[ FRemoveDelta.CellKey Delta ]} ∪ DirtyCells s).

Definition AppendAssemblyDelta (s : UFileDeltaStore) (Delta : FAssemblyDelta.t) : UFileDeltaStore :=
  mkStore (CurrentWorldName s) (BaseSaveDirectory s) (bIsInitialized s)
          (SurfaceDeltas s) (FractureDeltas s) (TransformDeltas s) (SpawnDeltas s)
          (RemoveDeltas s)
          (FindOrAdd_Add (AssemblyDeltas s) (FAssemblyDelta.CellKey Delta) Delta)
          ({[ FAssemblyDelta.CellKey Delta ]} ∪ DirtyCells s).

(** ** IDeltaStore: the get methods *)

Definition GetSurfaceDeltas (s : UFileDeltaStore) (CellKey : FWorldCellKey) :=
  Find_or_empty (SurfaceDeltas s) CellKey.
Definition GetFractureDeltas (s : UFileDeltaStore) (CellKey : FWorldCellKey) :=
  Find_or_empty (FractureDeltas s) CellKey.
Definition GetTransformDeltas (s : UFileDeltaStore) (CellKey : FWorldCellKey) :=
  Find_or_empty (TransformDeltas s) CellKey.
Definition GetSpawnDeltas (s : UFileDeltaStore) (CellKey : FWorldCellKey) :=
  Find_or_empty (SpawnDeltas s) CellKey.
Definition GetRemoveDeltas (s : UFileDeltaStore) (CellKey : FWorldCellKey) :=
  Find_or_empty (RemoveDeltas s) CellKey.
Definition GetAssemblyDeltas (s : UFileDeltaStore) (CellKey : FWorldCellKey) :=
  Find_or_empty (AssemblyDeltas s) CellKey.

(** [ClearCellDeltas]. *)
Definition ClearCellDeltas (s : UFileDeltaStore) (CellKey : FWorldCellKey) : UFileDeltaStore :=
  mkStore (CurrentWorldName s) (BaseSaveDirectory s) (bIsInitialized s)
          (delete CellKey (SurfaceDeltas s)) (delete CellKey (FractureDeltas s))
          (delete CellKey (TransformDeltas s)) (delete CellKey (SpawnDeltas s))
          (delete CellKey (RemoveDeltas s)) (delete CellKey (AssemblyDeltas s))
          (DirtyCells s ∖ {[ CellKey ]}).

(** ** A sequence of append calls through the [IDeltaStore] interface *)

Definition Append (s : UFileDeltaStore) (d : FDelta) : UFileDeltaStore :=
  match d with
  | SurfaceTile x => AppendSurfaceDelta s x
  | Fracture x => AppendFractureDelta s x
  | Transform x => AppendTransformDelta s x
  | Spawn x => AppendSpawnDelta s x
  | Remove x => AppendRemoveDelta s x
  | Assembly x => AppendAssemblyDelta s x
  end.

Definition AppendAll (s : UFileDeltaStore) (ds : list FDelta) : UFileDeltaStore :=
  fold_left Append ds s.

(** The deltas of one type appended for cell [c] by the calls [ds], in call
    order. *)
Definition surfaceAppended (c : FWorldCellKey) (ds : list FDelta) : list FSurfaceTileDelta.t :=
  flat_map (fun d => match d with
                     | SurfaceTile x => if decide (FSurfaceTileDelta.CellKey x = c) then [x] else []
                     | _ => [] end) ds.
Definition fractureAppended (c : FWorldCellKey) (ds : list FDelta) : list FFractureDelta.t :=
  flat_map (fun d => match d with
                     | Fracture x => if decide (FFractureDelta.CellKey x = c) then [x] else []
                     | _ => [] end) ds.
Definition transformAppended (c : FWorldCellKey) (ds : list FDelta) : list FTransformDelta.t :=
  flat_map (fun d => match d with
                     | Transform x => if decide (FTransformDelta.CellKey x = c) then [x] else []
                     | _ => [] end) ds.
Definition spawnAppended (c : FWorldCellKey) (ds : list FDelta) : list FSpawnDelta.t :=
  flat_map (fun d => match d with
                     | Spawn x => if decide (FSpawnDelta.CellKey x = c) then [x] else []
                     | _ => [] end) ds.
Definition removeAppended (c : FWorldCellKey) (ds : list FDelta) : list FRemoveDelta.t :=
  flat_map (fun d => match d with
                     | Remove x => if decide (FRemoveDelta.CellKey x = c) then [x] else []
                     | _ => [] end) ds.
Definition assemblyAppended (c : FWorldCellKey) (ds : list FDelta) : list FAssemblyDelta.t :=
  flat_map (fun d => match d with
                     | Assembly x => if decide (FAssemblyDelta.CellKey x = c) then [x] else []
                     | _ => [] end) ds.

(** ** Flush

    [Flush] copies, for every dirty cell, the arrays found in the six maps,
    empties [DirtyCells] and launches a task that owns the copies.  The task
    is returned next to the new state; nothing else of the store is written. *)

(** The six local [*Copy] maps of [Flush]. *)
Record FlushCapture := mkCapture {
  SurfaceCopy : gmap FWorldCellKey (list FSurfaceTileDelta.t);
  FractureCopy : gmap FWorldCellKey (list FFractureDelta.t);
  TransformCopy : gmap FWorldCellKey (list FTransformDelta.t);
  SpawnCopy : gmap FWorldCellKey (list FSpawnDelta.t);
  RemoveCopy : gmap FWorldCellKey (list FRemoveDelta.t);
  AssemblyCopy : gmap FWorldCellKey (list FAssemblyDelta.t)
}.

(** [if (Found = Map.Find(CellKey)) { Copy.Add(CellKey, *Found); }]. *)
Definition CopyFound {A : Type} (Map Copy : gmap FWorldCellKey (list A))
    (CellKey : FWorldCellKey) : gmap FWorldCellKey (list A) :=
  match Map !! CellKey with
  | Some Found => <[ CellKey := Found ]> Copy
  | None => Copy
  end.

(** One iteration of the capture loop over [CellsToFlush]. *)
Definition CaptureCell (s : UFileDeltaStore) (cap : FlushCapture)
    (CellKey : FWorldCellKey) : FlushCapture :=
  mkCapture (CopyFound (SurfaceDeltas s) (SurfaceCopy cap) CellKey)
            (CopyFound (FractureDeltas s) (FractureCopy cap) CellKey)
            (CopyFound (TransformDeltas s) (TransformCopy cap) CellKey)
            (CopyFound (SpawnDeltas s) (SpawnCopy cap) CellKey)
            (CopyFound (RemoveDeltas s) (RemoveCopy cap) CellKey)
            (CopyFound (AssemblyDeltas s) (AssemblyCopy cap) CellKey).

(** What the lambda passed to [UE::Tasks::Launch] captures by value. *)
Record FlushTask := mkTask {
  SaveDir : FString;
  CellsToFlush : list FWorldCellKey;
  Captured : FlushCapture
}.

Definition Flush (s : UFileDeltaStore) : UFileDeltaStore * option FlushTask :=
  if negb (bIsInitialized s) || (size (DirtyCells s) =? 0)%nat
  then (s, None)
  else
    let CellsToFlush := elements (DirtyCells s) in
    let SaveDir := PathJoin (BaseSaveDirectory s) (CurrentWorldName s) in
    let cap := fold_left (CaptureCell s) CellsToFlush (mkCapture ∅ ∅ ∅ ∅ ∅ ∅) in
    (mkStore (CurrentWorldName s) (BaseSaveDirectory s) (bIsInitialized s)
             (SurfaceDeltas s) (FractureDeltas s) (TransformDeltas s)
             (SpawnDeltas s) (RemoveDeltas s) (AssemblyDeltas s) ∅,
     Some (mkTask SaveDir CellsToFlush cap)).

(** The body of the task: one [deltas.json] per flushed cell.  The content
    is kept structured: the ["cell"] field and, for each delta type whose
    copy has the cell, the array written under that type's field.  The
    ["timestamp"] field, the clock of the worker at the time of writing, is
    left out. *)
Record CellData := mkCellData {
  cell : FString;
  surface_deltas : option (list FSurfaceTileDelta.t);
  fracture_deltas : option (list FFractureDelta.t);
  transform_deltas : option (list FTransformDelta.t);
  spawn_deltas : option (list FSpawnDelta.t);
  remove_deltas : option (list FRemoveDelta.t);
  assembly_deltas : option (list FAssemblyDelta.t)
}.

Definition FlushTask_run (t : FlushTask) : list (FString * CellData) :=
  map (fun CellKey =>
         let CellDir := PathJoin (SaveDir t) (FWorldCellKey_ToString CellKey) in
         (PathJoin CellDir "deltas.json",
          mkCellData (FWorldCellKey_ToString CellKey)
                     (SurfaceCopy (Captured t) !! CellKey)
                     (FractureCopy (Captured t) !! CellKey)
                     (TransformCopy (Captured t) !! CellKey)
                     (SpawnCopy (Captured t) !! CellKey)
                     (RemoveCopy (Captured t) !! CellKey)
                     (AssemblyCopy (Captured t) !! CellKey)))
      (CellsToFlush t).

(* ===================================================================== *)
(** * SpecTypes.h: spec identifiers, DataAssets and runtime structs *)
(* ===================================================================== *)

(** An [FName] stands for its comparison name, so that equality of the
    strings is [FName::operator==]. *)

Record FSurfaceSpecId := mkSurfaceSpecId { SurfaceSpecId_Id : FName }.
Record FMediumSpecId := mkMediumSpecId { MediumSpecId_Id : FName }.
Record FFXProfileId := mkFXProfileId { FXProfileId_Id : FName }.

(** [IsValid() const { return !Id.IsNone(); }] *)
Definition FMediumSpecId_IsValid (Id : FMediumSpecId) : bool :=
  negb (String.eqb (MediumSpecId_Id Id) NAME_None).

Inductive ESpecResolveResult :=
| ESpecResolveResult_Runtime
| ESpecResolveResult_DataAsset
| ESpecResolveResult_Fallback.

(** A pointer to a [UObject]: the object, or [nullptr]. *)
Definition ptr (A : Type) := option A.
Definition nullptr {A : Type} : ptr A := None.

(** The identity of a [UPhysicalMaterial] object (its address); [0] is
    [nullptr]. *)
Definition UPhysicalMaterialRef := N.

(** [FRuntimeFloatCurve]: the keys (time, value) of the curve. *)
Definition FRuntimeFloatCurve := list (float * float).

Module USurfaceSpec.
Record t := mk {
  SpecId : FSurfaceSpecId;
  DisplayName : FString;
  FrictionStatic : float;
  FrictionDynamic : float;
  Restitution : float;
  Compliance : float;
  DeformationStrength : float;
  DeformationRecoveryRate : float;
  WetnessResponseCurve : FRuntimeFloatCurve;
  TemperatureResponseCurve : FRuntimeFloatCurve;
  ThermalConductivityWmK : float;
  HeatCapacityJkgK : float;
  Emissivity01 : float;
  FXProfileId : FFXProfileId;
  PhysicalMaterial : FString
}.
End USurfaceSpec.

Module UMediumSpec.
Record t := mk {
  SpecId : FMediumSpecId;
  DisplayName : FString;
  Density : float;
  ViscosityProxy : float;
  Pressure : float;
  TemperatureK : float;
  ThermalConductivityWmK : float;
  HeatCapacityJkgK : float;
  BackgroundRadiationTempK : float;
  SolarIrradianceWm2 : float;
  SunDirection : FVector;
  GravityVector : FVector;
  LinearDragCoeff : float;
  QuadraticDragCoeff : float;
  BuoyancyScale : float;
  SpeedOfSound : float;
  SoundAttenuationMultiplier : float;
  bIsBreathable : bool;
  bAllowsPrecipitation : bool
}.
End UMediumSpec.

Record FTemperatureResponseLUT := mkLUT {
  MinTempK : float;
  MaxTempK : float;
  Samples : list float
}.

Module FRuntimeSurfaceSpec.
Record t := mk {
  SpecId : FName;
  Version : Z;
  DisplayName : FString;
  StaticFriction : float;
  DynamicFriction : float;
  Restitution : float;
  WetFrictionMultiplier : float;
  DeformationStrength : float;
  DeformationRatePerS : float;
  MaxDeformationDepthCm : float;
  RecoveryRatePerS : float;
  RollingResistance : float;
  FootstepImpulseDamping : float;
  ThermalConductivityWmK : float;
  HeatCapacityJkgK : float;
  Emissivity01 : float;
  bHasTemperatureResponse : bool;
  TempFrictionLUT : FTemperatureResponseLUT;
  bIsDeformable : bool;
  bIsSlippery : bool;
  bAffectedByWetness : bool
}.
(** [FRuntimeSurfaceSpec() = default]: the member initialisers. *)
Definition default : t := {|
  SpecId := NAME_None;
  Version := 1;
  DisplayName := EmptyString;
  StaticFriction := 0x3f4ccccd;          (* 0.8f *)
  DynamicFriction := 0x3f19999a;         (* 0.6f *)
  Restitution := 0x3e4ccccd;             (* 0.2f *)
  WetFrictionMultiplier := 0x3f333333;   (* 0.7f *)
  DeformationStrength := 0x0;
  DeformationRatePerS := 0x0;
  MaxDeformationDepthCm := 0x0;
  RecoveryRatePerS := 0x0;
  RollingResistance := 0x3c23d70a;       (* 0.01f *)
  FootstepImpulseDamping := 0x0;
  ThermalConductivityWmK := 0x3f800000;  (* 1.0f *)
  HeatCapacityJkgK := 0x447a0000;        (* 1000.0f *)
  Emissivity01 := 0x3f666666;            (* 0.9f *)
  bHasTemperatureResponse := false;
  TempFrictionLUT := mkLUT 0x43480000 (* 200.f *) 0x43af0000 (* 350.f *) [];
  bIsDeformable := false;
  bIsSlippery := false;
  bAffectedByWetness := true
|}.
End FRuntimeSurfaceSpec.

Module FRuntimeMediumSpec.
Record t := mk {
  SpecId : FName;
  Version : Z;
  DisplayName : FString;
  Density : float;
  LinearDragCoeff : float;
  QuadraticDragCoeff : float;
  Viscosity : float;
  PressurePa : float;
  TemperatureK : float;
  ThermalConductivityWmK : float;
  HeatCapacityJkgK : float;
  SolarIrradiance_Wm2 : float;
  SunDirection : FVector;
  Gravity : FVector;
  SpeedOfSound : float;
  AbsorptionCoefficient : float
}.
(** [FRuntimeMediumSpec() = default]: the member initialisers. *)
Definition default : t := {|
  SpecId := NAME_None;
  Version := 1;
  DisplayName := EmptyString;
  Density := 0x3f9ccccd;                 (* 1.225f *)
  LinearDragCoeff := 0x3dcccccd;         (* 0.1f *)
  QuadraticDragCoeff := 0x3c23d70a;      (* 0.01f *)
  Viscosity := 0x3796feb5;               (* 1.8e-5f *)
  PressurePa := 0x47c5e680;              (* 101325.0f *)
  TemperatureK := 0x43900000;            (* 288.0f *)
  ThermalConductivityWmK := 0x3cd4fdf4;  (* 0.026f *)
  HeatCapacityJkgK := 0x447b4000;        (* 1005.0f *)
  SolarIrradiance_Wm2 := 0x44480000;     (* 800.0f *)
  SunDirection := mkVector double_one double_zero double_zero;
  Gravity := mkVector double_zero double_zero 0xc08ea00000000000 (* -980.0 *);
  SpeedOfSound := 0x43ab8000;            (* 343.0f *)
  AbsorptionCoefficient := 0x3c23d70a    (* 0.01f *)
|}.
End FRuntimeMediumSpec.

(* ===================================================================== *)
(** * SurfaceQuerySubsystem.cpp: the surface spec registries *)
(* ===================================================================== *)

(** [FallbackSurfaceSpec]: a default-constructed spec with the members
    assigned by the initialising lambda. *)
Definition FallbackSurfaceSpec : FRuntimeSurfaceSpec.t := {|
  FRuntimeSurfaceSpec.SpecId := NAME_None;
  FRuntimeSurfaceSpec.Version := 1;
  FRuntimeSurfaceSpec.DisplayName := "Default";
  FRuntimeSurfaceSpec.StaticFriction := 0x3f333333;          (* 0.7f *)
  FRuntimeSurfaceSpec.DynamicFriction := 0x3f000000;         (* 0.5f *)
  FRuntimeSurfaceSpec.Restitution := 0x3e99999a;             (* 0.3f *)
  FRuntimeSurfaceSpec.WetFrictionMultiplier := 0x3f333333;
  FRuntimeSurfaceSpec.DeformationStrength := 0x0;
  FRuntimeSurfaceSpec.DeformationRatePerS := 0x0;
  FRuntimeSurfaceSpec.MaxDeformationDepthCm := 0x0;
  FRuntimeSurfaceSpec.RecoveryRatePerS := 0x0;
  FRuntimeSurfaceSpec.RollingResistance := 0x3c23d70a;
  FRuntimeSurfaceSpec.FootstepImpulseDamping := 0x0;
  FRuntimeSurfaceSpec.ThermalConductivityWmK := 0x3cd4fdf4;  (* 0.026f *)
  FRuntimeSurfaceSpec.HeatCapacityJkgK := 0x447b4000;        (* 1005.0f *)
  FRuntimeSurfaceSpec.Emissivity01 := 0x3f666666;            (* 0.9f *)
  FRuntimeSurfaceSpec.bHasTemperatureResponse := false;
  FRuntimeSurfaceSpec.TempFrictionLUT := mkLUT 0x43480000 0x43af0000 [];
  FRuntimeSurfaceSpec.bIsDeformable := false;
  FRuntimeSurfaceSpec.bIsSlippery := false;
  FRuntimeSurfaceSpec.bAffectedByWetness := false
|}.

(** The members of [USurfaceQuerySubsystem] that hold specs. *)
Record USurfaceQuerySubsystem := mkSurfaceSubsystem {
  SurfaceSpecMap : gmap UPhysicalMaterialRef (ptr USurfaceSpec.t);
  DefaultSurfaceSpec : ptr USurfaceSpec.t;
  RuntimeSurfaceSpecs : gmap FName FRuntimeSurfaceSpec.t
}.

Definition USurfaceQuerySubsystem_new : USurfaceQuerySubsystem :=
  mkSurfaceSubsystem ∅ nullptr ∅.

(** DataAsset workflow: [RegisterSurfaceSpec], [GetSurfaceSpecForMaterial]. *)
Definition RegisterSurfaceSpec (s : USurfaceQuerySubsystem)
    (PhysMat : UPhysicalMaterialRef) (Spec : ptr USurfaceSpec.t) : USurfaceQuerySubsystem :=
  match N.eqb PhysMat 0, Spec with
  | false, Some _ =>
      mkSurfaceSubsystem (<[ PhysMat := Spec ]> (SurfaceSpecMap s))
                         (DefaultSurfaceSpec s) (RuntimeSurfaceSpecs s)
  | _, _ => s
  end.

Definition GetSurfaceSpecForMaterial (s : USurfaceQuerySubsystem)
    (PhysMat : UPhysicalMaterialRef) : ptr USurfaceSpec.t :=
  if N.eqb PhysMat 0 then DefaultSurfaceSpec s
  else match SurfaceSpecMap s !! PhysMat with
       | Some (Some FoundSpec) => Some FoundSpec
       | _ => DefaultSurfaceSpec s
       end.

(** Runtime workflow. *)
Definition RegisterRuntimeSurfaceSpec (s : USurfaceQuerySubsystem)
    (Id : FSurfaceSpecId) (Spec : FRuntimeSurfaceSpec.t) : USurfaceQuerySubsystem :=
  mkSurfaceSubsystem (SurfaceSpecMap s) (DefaultSurfaceSpec s)
                     (<[ SurfaceSpecId_Id Id := Spec ]> (RuntimeSurfaceSpecs s)).

(** [ResolveSurfaceSpec]: the returned pair is the [bool] result and the
    value of [OutSpec] after the call. *)
Definition ResolveSurfaceSpec (s : USurfaceQuerySubsystem) (Id : FSurfaceSpecId)
    (OutSpec : FRuntimeSurfaceSpec.t) : bool * FRuntimeSurfaceSpec.t :=
  match RuntimeSurfaceSpecs s !! SurfaceSpecId_Id Id with
  | Some RuntimeSpec => (true, RuntimeSpec)
  | None => (false, FallbackSurfaceSpec)
  end.

Definition HasRuntimeSpec (s : USurfaceQuerySubsystem) (Id : FSurfaceSpecId) : bool :=
  bool_decide (is_Some (RuntimeSurfaceSpecs s !! SurfaceSpecId_Id Id)).

Definition ClearRuntimeSpecs (s : USurfaceQuerySubsystem) : USurfaceQuerySubsystem :=
  mkSurfaceSubsystem (SurfaceSpecMap s) (DefaultSurfaceSpec s) ∅.

(** Whether some registered DataAsset carries the identifier [Id]. *)
Definition SurfaceAssetRegistered (s : USurfaceQuerySubsystem) (Id : FSurfaceSpecId) : Prop :=
  exists PhysMat Spec,
    SurfaceSpecMap s !! PhysMat = Some (Some Spec) /\ USurfaceSpec.SpecId Spec = Id.

(* ===================================================================== *)
(** * EnvironmentSubsystem.cpp: the medium spec registries *)
(* ===================================================================== *)

Definition FallbackMediumSpec : FRuntimeMediumSpec.t := {|
  FRuntimeMediumSpec.SpecId := NAME_None;
  FRuntimeMediumSpec.Version := 1;
  FRuntimeMediumSpec.DisplayName := "Earth Atmosphere";
  FRuntimeMediumSpec.Density := 0x3f9ccccd;                (* 1.225f *)
  FRuntimeMediumSpec.LinearDragCoeff := 0x3dcccccd;
  FRuntimeMediumSpec.QuadraticDragCoeff := 0x3f000000;     (* 0.5f *)
  FRuntimeMediumSpec.Viscosity := 0x3796feb5;              (* 1.8e-5f *)
  FRuntimeMediumSpec.PressurePa := 0x47c5e680;
  FRuntimeMediumSpec.TemperatureK := 0x43900000;
  FRuntimeMediumSpec.ThermalConductivityWmK := 0x3cd4fdf4;
  FRuntimeMediumSpec.HeatCapacityJkgK := 0x447b4000;
  FRuntimeMediumSpec.SolarIrradiance_Wm2 := 0x44480000;
  FRuntimeMediumSpec.SunDirection := mkVector double_one double_zero double_zero;
  FRuntimeMediumSpec.Gravity := mkVector double_zero double_zero 0xc08ea00000000000;
  FRuntimeMediumSpec.SpeedOfSound := 0x43ab8000;           (* 343.0f *)
  FRuntimeMediumSpec.AbsorptionCoefficient := 0x3c23d70a   (* 0.01f *)
|}.

(** The members of [UEnvironmentSubsystem] that hold specs. *)
Record UEnvironmentSubsystem := mkEnvironmentSubsystem {
  MediumSpecMap : gmap FName (ptr UMediumSpec.t);
  DefaultMediumSpec : ptr UMediumSpec.t;
  RuntimeMediumSpecs : gmap FName FRuntimeMediumSpec.t
}.

Definition UEnvironmentSubsystem_new : UEnvironmentSubsystem :=
  mkEnvironmentSubsystem ∅ nullptr ∅.

(** DataAsset workflow: [RegisterMediumSpec], [GetMediumSpec]. *)
Definition RegisterMediumSpec (s : UEnvironmentSubsystem)
    (SpecId : FMediumSpecId) (Spec : ptr UMediumSpec.t) : UEnvironmentSubsystem :=
  match FMediumSpecId_IsValid SpecId, Spec with
  | true, Some _ =>
      mkEnvironmentSubsystem (<[ MediumSpecId_Id SpecId := Spec ]> (MediumSpecMap s))
                             (DefaultMediumSpec s) (RuntimeMediumSpecs s)
  | _, _ => s
  end.

Definition GetMediumSpec (s : UEnvironmentSubsystem) (SpecId : FMediumSpecId) : ptr UMediumSpec.t :=
  if negb (FMediumSpecId_IsValid SpecId) then DefaultMediumSpec s
  else match MediumSpecMap s !! MediumSpecId_Id SpecId with
       | Some (Some FoundSpec) => Some FoundSpec
       | _ => DefaultMediumSpec s
       end.

(** Runtime workflow. *)
Definition RegisterRuntimeMediumSpec (s : UEnvironmentSubsystem)
    (Id : FMediumSpecId) (Spec : FRuntimeMediumSpec.t) : UEnvironmentSubsystem :=
  mkEnvironmentSubsystem (MediumSpecMap s) (DefaultMediumSpec s)
                         (<[ MediumSpecId_Id Id := Spec ]> (RuntimeMediumSpecs s)).

Definition ResolveMediumSpec (s : UEnvironmentSubsystem) (Id : FMediumSpecId)
    (OutSpec : FRuntimeMediumSpec.t) : bool * FRuntimeMediumSpec.t :=
  match RuntimeMediumSpecs s !! MediumSpecId_Id Id with
  | Some RuntimeSpec => (true, RuntimeSpec)
  | None => (false, FallbackMediumSpec)
  end.

Definition HasRuntimeMediumSpec (s : UEnvironmentSubsystem) (Id : FMediumSpecId) : bool :=
  bool_decide (is_Some (RuntimeMediumSpecs s !! MediumSpecId_Id Id)).

Definition ClearRuntimeMediumSpecs (s : UEnvironmentSubsystem) : UEnvironmentSubsystem :=
  mkEnvironmentSubsystem (MediumSpecMap s) (DefaultMediumSpec s) ∅.

(* ===================================================================== *)
(** * SpecPackLoader.h / SpecPackLoader.cpp *)
(* ===================================================================== *)

Record FSpecPackManifest := mkManifest {
  PackId : FString;
  ManifestVersion : Z;
  ContentHash : FString;
  EngineCompat : FString;
  ManifestTimestamp : FDateTime;
  ContainedSpecTypes : list FString
}.

(** The member initialisers of [FSpecPackManifest]. *)
Definition FSpecPackManifest_default : FSpecPackManifest :=
  mkManifest EmptyString 1 EmptyString "5.7" 0 [].

Record FSpecPackLoadResult := mkLoadResult {
  bSuccess : bool;
  ErrorMessage : FString;
  Manifest : FSpecPackManifest;
  SurfaceSpecsLoaded : Z;
  MediumSpecsLoaded : Z;
  BiomeSpecsLoaded : Z
}.

(** The member initialisers of [FSpecPackLoadResult]. *)
Definition FSpecPackLoadResult_default : FSpecPackLoadResult :=
  mkLoadResult false EmptyString FSpecPackManifest_default 0 0 0.

Record USpecPackLoader := mkLoader {
  DefaultSpecPackPath : FString;
  CachedManifests : gmap FString FSpecPackManifest
}.

(** The engine services the loader calls: the file helper, the JSON
    reader and the accessors of the parsed document, the hash and the
    clock.  An accessor returns [None] where the engine function returns
    [false] (and leaves its output argument as it was). *)
Class SpecPackEngine := {
  FJsonObject : Type;
  FJsonValue : Type;
  (** [FFileHelper::LoadFileToString]: the content, when the file can be read. *)
  LoadFileToString : FString -> option FString;
  (** [FJsonSerializer::Deserialize] into a root object that is valid. *)
  Deserialize : FString -> option FJsonObject;
  TryGetStringField : FJsonObject -> FString -> option FString;
  TryGetNumberField : FJsonObject -> FString -> option Z;
  TryGetArrayField : FJsonObject -> FString -> option (list FJsonValue);
  TryGetObject : FJsonValue -> option FJsonObject;
  TryGetString : FJsonValue -> option FString;
  (** [FSHA1::HashBuffer] of the content, printed by [FSHAHash::ToString]. *)
  HashBuffer : FString -> FString;
  (** [FDateTime::UtcNow()]. *)
  UtcNow : FDateTime
}.

Section SpecPackLoader.
Context {engine : SpecPackEngine}.

Definition GetSpecPackHash (FilePath : FString) : FString :=
  match LoadFileToString FilePath with
  | None => EmptyString
  | Some JsonString => HashBuffer JsonString
  end.

Definition GetManifest (l : USpecPackLoader) (FilePath : FString)
    (OutManifest : FSpecPackManifest) : bool * FSpecPackManifest :=
  match CachedManifests l !! FilePath with
  | Some Found => (true, Found)
  | None => (false, OutManifest)
  end.

(** [ParseSurfaceSpecs] and [ParseMediumSpecs].  The spec built from an
    entry is handed to [RegisterSurfaceSpec] / [RegisterMediumSpec], which
    only log; what remains is the count of the entries that are objects
    with a string ["id"]. *)
Definition CountSpecEntry (Count : Z) (Value : FJsonValue) : Z :=
  match TryGetObject Value with
  | None => Count
  | Some SpecObj =>
      match TryGetStringField SpecObj "id" with
      | None => Count
      | Some IdString => Count + 1
      end
  end.

Definition ParseSurfaceSpecs (RootObject : FJsonObject) : Z :=
  match TryGetArrayField RootObject "surface_specs" with
  | None => 0
  | Some SpecArray => fold_left CountSpecEntry SpecArray 0
  end.

Definition ParseMediumSpecs (RootObject : FJsonObject) : Z :=
  match TryGetArrayField RootObject "medium_specs" with
  | None => 0
  | Some SpecArray => fold_left CountSpecEntry SpecArray 0
  end.

Definition ParseBiomeSpecs (RootObject : FJsonObject) : Z := 0.

(** [ParseManifest]: the value of [OutManifest] after the call. *)
Definition ParseManifest (RootObject : FJsonObject) (OutManifest : FSpecPackManifest)
    : FSpecPackManifest :=
  let PackId' := default (PackId OutManifest) (TryGetStringField RootObject "pack_id") in
  let Version' := default (ManifestVersion OutManifest) (TryGetNumberField RootObject "version") in
  let EngineCompat' :=
    default (EngineCompat OutManifest) (TryGetStringField RootObject "engine_compat") in
  let Types' :=
    match TryGetArrayField RootObject "spec_types" with
    | Some TypesArray =>
        fold_left (fun acc Value =>
                     match TryGetString Value with
                     | Some TypeName => acc ++ [TypeName]
                     | None => acc
                     end) TypesArray (ContainedSpecTypes OutManifest)
    | None => ContainedSpecTypes OutManifest
    end in
  mkManifest PackId' Version' (ContentHash OutManifest) EngineCompat' UtcNow Types'.

(** [LoadSpecPack]: the result struct and the loader after the call. *)
Definition LoadSpecPack (l : USpecPackLoader) (FilePath : FString)
    : FSpecPackLoadResult * USpecPackLoader :=
  let Result := FSpecPackLoadResult_default in
  match LoadFileToString FilePath with
  | None =>
      (mkLoadResult (bSuccess Result) ("Failed to read file: " +:+ FilePath)
                    (Manifest Result) (SurfaceSpecsLoaded Result)
                    (MediumSpecsLoaded Result) (BiomeSpecsLoaded Result),
       l)
  | Some JsonString =>
      match Deserialize JsonString with
      | None =>
          (mkLoadResult (bSuccess Result) "Failed to parse JSON"
                        (Manifest Result) (SurfaceSpecsLoaded Result)
                        (MediumSpecsLoaded Result) (BiomeSpecsLoaded Result),
           l)
      | Some RootObject =>
          let M := ParseManifest RootObject (Manifest Result) in
          let M := mkManifest (PackId M) (ManifestVersion M) (GetSpecPackHash FilePath)
                              (EngineCompat M) (ManifestTimestamp M) (ContainedSpecTypes M) in
          (mkLoadResult true (ErrorMessage Result) M
                        (ParseSurfaceSpecs RootObject)
                        (ParseMediumSpecs RootObject)
                        (ParseBiomeSpecs RootObject),
           mkLoader (DefaultSpecPackPath l) (<[ FilePath := M ]> (CachedManifests l)))
      end
  end.

(** The file cannot be read, or its content is not a JSON document. *)
Definition CannotLoad (FilePath : FString) : Prop :=
  match LoadFileToString FilePath with
  | None => True
  | Some JsonString => Deserialize JsonString = None
  end.

End SpecPackLoader.

(** A small engine instance used to run the loader: two files, one with a
    document of one well-formed surface entry and one without an id, the
    other with text that does not parse. *)
#[local] Set Warnings "-register-all".
Inductive ToyJson :=
| ToyObject (fields : list (FString * ToyJson))
| ToyArray (items : list ToyJson)
| ToyString (s : FString)
| ToyNumber (n : Z).

Definition ToyField (o : list (FString * ToyJson)) (name : FString) : option ToyJson :=
  snd <$> List.find (fun p => String.eqb (fst p) name) o.

Definition ToyCoreDocument : list (FString * ToyJson) :=
  [ ("pack_id", ToyString "Core"); ("version", ToyNumber 3);
    ("surface_specs",
     ToyArray [ ToyObject [ ("id", ToyString "Ice") ];
                ToyObject [ ("display_name", ToyString "no id") ];
                ToyNumber 7 ]) ].

Definition ToyEngine : SpecPackEngine := {|
  FJsonObject := list (FString * ToyJson);
  FJsonValue := ToyJson;
  LoadFileToString := fun p =>
    if String.eqb p "Core.json" then Some "core-text"
    else if String.eqb p "Broken.json" then Some "{ oops"
    else None;
  Deserialize := fun text =>
    if String.eqb text "core-text" then Some ToyCoreDocument else None;
  TryGetStringField := fun o name =>
    match ToyField o name with Some (ToyString s) => Some s | _ => None end;
  TryGetNumberField := fun o name =>
    match ToyField o name with Some (ToyNumber n) => Some n | _ => None end;
  TryGetArrayField := fun o name =>
    match ToyField o name with Some (ToyArray a) => Some a | _ => None end;
  TryGetObject := fun v => match v with ToyObject o => Some o | _ => None end;
  TryGetString := fun v => match v with ToyString s => Some s | _ => None end;
  HashBuffer := fun text => "sha1:" +:+ text;
  UtcNow := 42
|}.

(* ===================================================================== *)
(** * The tiers of spec resolution, as the documentation lists them *)
(* ===================================================================== *)

(** The header comments of [ResolveSurfaceSpec] and [ResolveMediumSpec] give
    the resolution order "Runtime registry, DataAsset fallback, Default".
    These two functions name the first tier of that list which contains the
    identifier; they follow the documentation, not the function bodies. *)
Definition Documented_FirstTier_Medium (s : UEnvironmentSubsystem) (Id : FMediumSpecId)
    : ESpecResolveResult :=
  match RuntimeMediumSpecs s !! MediumSpecId_Id Id with
  | Some _ => ESpecResolveResult_Runtime
  | None =>
      match MediumSpecMap s !! MediumSpecId_Id Id with
      | Some (Some _) => ESpecResolveResult_DataAsset
      | _ => ESpecResolveResult_Fallback
      end
  end.

Definition Documented_FirstTier_Surface (s : USurfaceQuerySubsystem) (Id : FSurfaceSpecId)
    : ESpecResolveResult :=
  match RuntimeSurfaceSpecs s !! SurfaceSpecId_Id Id with
  | Some _ => ESpecResolveResult_Runtime
  | None =>
      if existsb (fun entry => match snd entry with
                               | Some a => String.eqb (SurfaceSpecId_Id (USurfaceSpec.SpecId a))
                                                      (SurfaceSpecId_Id Id)
                               | None => false
                               end)
                 (map_to_list (SurfaceSpecMap s))
      then ESpecResolveResult_DataAsset
      else ESpecResolveResult_Fallback
  end.

(* ===================================================================== *)
(** * Sample data *)
(* ===================================================================== *)

Definition cellA : FWorldCellKey := mkCellKey 0 0 0.
Definition cellB : FWorldCellKey := mkCellKey 1 (-2) 0.

(** 10 cm of snow on a tile of [cellA] (the usage example of the header). *)
Definition snow : FSurfaceTileDelta.t :=
  FSurfaceTileDelta.mk cellA 0 ZeroVector 0x42480000 Ch_SnowDepth Op_Add
                       0x41200000 (* 10.0f *) double_zero NAME_None.

Definition wet : FSurfaceTileDelta.t :=
  FSurfaceTileDelta.mk cellA 3 ZeroVector 0x42480000 Ch_Wetness Op_Set
                       0x3f000000 (* 0.5f *) double_one "Player1".

Definition moved : FTransformDelta.t :=
  FTransformDelta.mk cellB (mkGuid 1 2 3 4) FTransform_Identity false true double_zero.

Definition removed : FRemoveDelta.t :=
  FRemoveDelta.mk cellA (mkGuid 5 6 7 8) "Destroyed" double_one.

Definition sampleCalls : list FDelta :=
  [ SurfaceTile snow; Transform moved; SurfaceTile wet; Remove removed ].

Definition sampleStore : UFileDeltaStore :=
  AppendAll (snd (Initialize (fun _ => true) (fun _ => true)
                             (UFileDeltaStore_new "Saved") "MyWorld"))
            sampleCalls.

(** A medium DataAsset registered through the DataAsset workflow only. *)
Definition WaterAsset : UMediumSpec.t := {|
  UMediumSpec.SpecId := mkMediumSpecId "Water";
  UMediumSpec.DisplayName := "Water";
  UMediumSpec.Density := 0x44798000;                   (* 998.0f *)
  UMediumSpec.ViscosityProxy := 0x3a83126f;            (* 0.001f *)
  UMediumSpec.Pressure := 0x42caa666;                  (* 101.325f *)
  UMediumSpec.TemperatureK := 0x43900000;              (* 288.0f *)
  UMediumSpec.ThermalConductivityWmK := 0x3f19999a;    (* 0.6f *)
  UMediumSpec.HeatCapacityJkgK := 0x447b4000;
  UMediumSpec.BackgroundRadiationTempK := 0x43900000;
  UMediumSpec.SolarIrradianceWm2 := 0x0;
  UMediumSpec.SunDirection := mkVector double_zero double_zero 0xbff0000000000000 (* -1.0 *);
  UMediumSpec.GravityVector := mkVector double_zero double_zero 0xc08ea00000000000;
  UMediumSpec.LinearDragCoeff := 0x3dcccccd;
  UMediumSpec.QuadraticDragCoeff := 0x3c23d70a;
  UMediumSpec.BuoyancyScale := 0x3f800000;
  UMediumSpec.SpeedOfSound := 0x44b90000;              (* 1480.0f *)
  UMediumSpec.SoundAttenuationMultiplier := 0x3f800000;
  UMediumSpec.bIsBreathable := false;
  UMediumSpec.bAllowsPrecipitation := false
|}.

Definition envWithWaterAsset : UEnvironmentSubsystem :=
  RegisterMediumSpec UEnvironmentSubsystem_new (mkMediumSpecId "Water") (Some WaterAsset).

(** A surface DataAsset bound to a physical material. *)
Definition IceAsset : USurfaceSpec.t := {|
  USurfaceSpec.SpecId := mkSurfaceSpecId "Ice";
  USurfaceSpec.DisplayName := "Ice";
  USurfaceSpec.FrictionStatic := 0x3dcccccd;           (* 0.1f *)
  USurfaceSpec.FrictionDynamic := 0x3dcccccd;
  USurfaceSpec.Restitution := 0x3e4ccccd;
  USurfaceSpec.Compliance := 0x0;
  USurfaceSpec.DeformationStrength := 0x0;
  USurfaceSpec.DeformationRecoveryRate := 0x0;
  USurfaceSpec.WetnessResponseCurve := [ (0x0, 0x3f800000); (0x3f800000, 0x3f333333) ];
  USurfaceSpec.TemperatureResponseCurve := [];
  USurfaceSpec.ThermalConductivityWmK := 0x3f800000;
  USurfaceSpec.HeatCapacityJkgK := 0x447a0000;
  USurfaceSpec.Emissivity01 := 0x3f666666;
  USurfaceSpec.FXProfileId := mkFXProfileId NAME_None;
  USurfaceSpec.PhysicalMaterial := "/Game/Physics/PM_Ice"
|}.

Definition surfaceWithIceAsset : USurfaceQuerySubsystem :=
  RegisterSurfaceSpec USurfaceQuerySubsystem_new 1%N (Some IceAsset).

(** A runtime spec as a SpecPack would register it. *)
Definition MudRuntimeSpec : FRuntimeSurfaceSpec.t := {|
  FRuntimeSurfaceSpec.SpecId := "Mud";
  FRuntimeSurfaceSpec.Version := 1;
  FRuntimeSurfaceSpec.DisplayName := "Mud";
  FRuntimeSurfaceSpec.StaticFriction := 0x3f000000;
  FRuntimeSurfaceSpec.DynamicFriction := 0x3e99999a;
  FRuntimeSurfaceSpec.Restitution := 0x3dcccccd;
  FRuntimeSurfaceSpec.WetFrictionMultiplier := 0x3f333333;
  FRuntimeSurfaceSpec.DeformationStrength := 0x3f000000;
  FRuntimeSurfaceSpec.DeformationRatePerS := 0x3f800000;
  FRuntimeSurfaceSpec.MaxDeformationDepthCm := 0x41200000;
  FRuntimeSurfaceSpec.RecoveryRatePerS := 0x0;
  FRuntimeSurfaceSpec.RollingResistance := 0x3dcccccd;
  FRuntimeSurfaceSpec.FootstepImpulseDamping := 0x3f000000;
  FRuntimeSurfaceSpec.ThermalConductivityWmK := 0x3f800000;
  FRuntimeSurfaceSpec.HeatCapacityJkgK := 0x447a0000;
  FRuntimeSurfaceSpec.Emissivity01 := 0x3f666666;
  FRuntimeSurfaceSpec.bHasTemperatureResponse := false;
  FRuntimeSurfaceSpec.TempFrictionLUT := mkLUT 0x43480000 0x43af0000 [];
  FRuntimeSurfaceSpec.bIsDeformable := true;
  FRuntimeSurfaceSpec.bIsSlippery := true;
  FRuntimeSurfaceSpec.bAffectedByWetness := true
|}.

Definition emptyLoader : USpecPackLoader := mkLoader "Content/SpecPacks/Core.json" ∅.

(* ===================================================================== *)
(** * Call sequences on the delta store *)
(* ===================================================================== *)

(** A call of a mutating member of [UFileDeltaStore].  [Call_Initialize]
    carries the answers of the platform file layer for that call. *)
Inductive StoreCall :=
| Call_Append (d : FDelta)
| Call_ClearCellDeltas (CellKey : FWorldCellKey)
| Call_Flush
| Call_Initialize (DirectoryExists CreateDirectoryTree : FString -> bool) (WorldName : FString).

Definition DoCall (s : UFileDeltaStore) (call : StoreCall) : UFileDeltaStore :=
  match call with
  | Call_Append d => Append s d
  | Call_ClearCellDeltas CellKey => ClearCellDeltas s CellKey
  | Call_Flush => fst (Flush s)
  | Call_Initialize DirectoryExists CreateDirectoryTree WorldName =>
      snd (Initialize DirectoryExists CreateDirectoryTree s WorldName)
  end.

Definition DoCalls (s : UFileDeltaStore) (calls : list StoreCall) : UFileDeltaStore :=
  fold_left DoCall calls s.

(** Whether the store holds a delta of some type for the cell. *)
Definition HasDeltas (s : UFileDeltaStore) (c : FWorldCellKey) : Prop :=
  GetSurfaceDeltas s c <> [] \/ GetFractureDeltas s c <> []
  \/ GetTransformDeltas s c <> [] \/ GetSpawnDeltas s c <> []
  \/ GetRemoveDeltas s c <> [] \/ GetAssemblyDeltas s c <> [].

(** What the task writes for one cell: the file path and the arrays. *)
Definition FlushedFile (SaveDir : FString) (s : UFileDeltaStore) (CellKey : FWorldCellKey)
    : FString * CellData :=
  (PathJoin (PathJoin SaveDir (FWorldCellKey_ToString CellKey)) "deltas.json",
   mkCellData (FWorldCellKey_ToString CellKey)
              (SurfaceDeltas s !! CellKey) (FractureDeltas s !! CellKey)
              (TransformDeltas s !! CellKey) (SpawnDeltas s !! CellKey)
              (RemoveDeltas s !! CellKey) (AssemblyDeltas s !! CellKey)).

(* ===================================================================== *)
(** * SurfaceQuerySubsystem.cpp: the remaining registry functions *)
(* ===================================================================== *)

Definition SetDefaultSurfaceSpec (s : USurfaceQuerySubsystem) (Spec : ptr USurfaceSpec.t)
    : USurfaceQuerySubsystem :=
  mkSurfaceSubsystem (SurfaceSpecMap s) Spec (RuntimeSurfaceSpecs s).

(** [Deinitialize]. *)
Definition USurfaceQuerySubsystem_Deinitialize (s : USurfaceQuerySubsystem)
    : USurfaceQuerySubsystem :=
  mkSurfaceSubsystem ∅ nullptr ∅.

(** [GetAllRuntimeSpecIds]: one id per entry of the runtime registry, in the
    iteration order of the map. *)
Definition GetAllRuntimeSpecIds (s : USurfaceQuerySubsystem) : list FSurfaceSpecId :=
  map (fun Pair => mkSurfaceSpecId (fst Pair)) (map_to_list (RuntimeSurfaceSpecs s)).

(** A sequence of [RegisterRuntimeSurfaceSpec] calls, as a SpecPack or
    several of them make. *)
Definition RegisterRuntimeSurfaceSpecs (s : USurfaceQuerySubsystem)
    (regs : list (FSurfaceSpecId * FRuntimeSurfaceSpec.t)) : USurfaceQuerySubsystem :=
  fold_left (fun st reg => RegisterRuntimeSurfaceSpec st (fst reg) (snd reg)) regs s.

(** The spec of the last call in [regs] made for [Id], if any. *)
Definition LastRegisteredSurface (Id : FSurfaceSpecId)
    (regs : list (FSurfaceSpecId * FRuntimeSurfaceSpec.t)) : option FRuntimeSurfaceSpec.t :=
  snd <$> List.find (fun reg => String.eqb (SurfaceSpecId_Id (fst reg)) (SurfaceSpecId_Id Id))
                    (rev regs).

(** A sequence of [RegisterSurfaceSpec] calls (DataAsset workflow). *)
Definition RegisterSurfaceSpecs (s : USurfaceQuerySubsystem)
    (regs : list (UPhysicalMaterialRef * ptr USurfaceSpec.t)) : USurfaceQuerySubsystem :=
  fold_left (fun st reg => RegisterSurfaceSpec st (fst reg) (snd reg)) regs s.

(** The asset of the last call in [regs] made for the material [PhysMat]
    with a non-null asset, if any. *)
Definition LastBoundSurfaceAsset (PhysMat : UPhysicalMaterialRef)
    (regs : list (UPhysicalMaterialRef * ptr USurfaceSpec.t)) : option USurfaceSpec.t :=
  match List.find (fun reg => N.eqb (fst reg) PhysMat
                              && match snd reg with Some _ => true | None => false end)
                  (rev regs) with
  | Some (_, Spec) => Spec
  | None => None
  end.

(* ===================================================================== *)
(** * EnvironmentSubsystem.cpp: the remaining registry functions and the
      environment volumes *)
(* ===================================================================== *)

Definition SetDefaultMediumSpec (s : UEnvironmentSubsystem) (Spec : ptr UMediumSpec.t)
    : UEnvironmentSubsystem :=
  mkEnvironmentSubsystem (MediumSpecMap s) Spec (RuntimeMediumSpecs s).

Definition GetAllRuntimeMediumSpecIds (s : UEnvironmentSubsystem) : list FMediumSpecId :=
  map (fun Pair => mkMediumSpecId (fst Pair)) (map_to_list (RuntimeMediumSpecs s)).

Definition RegisterRuntimeMediumSpecs (s : UEnvironmentSubsystem)
    (regs : list (FMediumSpecId * FRuntimeMediumSpec.t)) : UEnvironmentSubsystem :=
  fold_left (fun st reg => RegisterRuntimeMediumSpec st (fst reg) (snd reg)) regs s.

Definition LastRegisteredMedium (Id : FMediumSpecId)
    (regs : list (FMediumSpecId * FRuntimeMediumSpec.t)) : option FRuntimeMediumSpec.t :=
  snd <$> List.find (fun reg => String.eqb (MediumSpecId_Id (fst reg)) (MediumSpecId_Id Id))
                    (rev regs).

(** A sequence of [RegisterMediumSpec] calls (DataAsset workflow). *)
Definition RegisterMediumSpecs (s : UEnvironmentSubsystem)
    (regs : list (FMediumSpecId * ptr UMediumSpec.t)) : UEnvironmentSubsystem :=
  fold_left (fun st reg => RegisterMediumSpec st (fst reg) (snd reg)) regs s.

(** The asset of the last call in [regs] made for [Id] with a valid id and a
    non-null asset, if any. *)
Definition LastBoundMediumAsset (Id : FMediumSpecId)
    (regs : list (FMediumSpecId * ptr UMediumSpec.t)) : option UMediumSpec.t :=
  match List.find (fun reg => String.eqb (MediumSpecId_Id (fst reg)) (MediumSpecId_Id Id)
                              && FMediumSpecId_IsValid (fst reg)
                              && match snd reg with Some _ => true | None => false end)
                  (rev regs) with
  | Some (_, Spec) => Spec
  | None => None
  end.

(** ** Environment volumes *)

(** The members of [UEnvironmentVolumeComponent] declared in the header. *)
Record UEnvironmentVolumeComponent := mkVolume {
  Volume_MediumSpecId : FMediumSpecId;
  Priority : Z;
  TemperatureOverride : float;
  PressureOverride : float;
  WindVelocity : FVector
}.

(** A pointer to a volume component: its address, [0] for [nullptr]. *)
Definition UEnvironmentVolumeRef := N.

(** The volume components that are alive, by address: [IsValid(Volume)]
    holds for a non-null pointer exactly when its address is a key. *)
Definition VolumeObjects := gmap UEnvironmentVolumeRef UEnvironmentVolumeComponent.

(** [UEnvironmentSubsystem] with its list of registered volumes. *)
Record UEnvironmentSubsystemVolumes := mkEnvironmentVolumes {
  EnvironmentSpecs : UEnvironmentSubsystem;
  RegisteredVolumes : list UEnvironmentVolumeRef
}.

(** [if (Volume && !RegisteredVolumes.Contains(Volume)) RegisteredVolumes.Add(Volume)]. *)
Definition RegisterVolume (s : UEnvironmentSubsystemVolumes) (Volume : UEnvironmentVolumeRef)
    : UEnvironmentSubsystemVolumes :=
  if negb (N.eqb Volume 0) && negb (bool_decide (Volume ∈ RegisteredVolumes s))
  then mkEnvironmentVolumes (EnvironmentSpecs s) (RegisteredVolumes s ++ [Volume])
  else s.

(** [RegisteredVolumes.Remove(Volume)]: every element equal to [Volume] goes,
    the order of the others is kept. *)
Definition UnregisterVolume (s : UEnvironmentSubsystemVolumes) (Volume : UEnvironmentVolumeRef)
    : UEnvironmentSubsystemVolumes :=
  mkEnvironmentVolumes (EnvironmentSpecs s)
                       (List.filter (fun v => negb (N.eqb v Volume)) (RegisteredVolumes s)).

(** [Deinitialize]. *)
Definition UEnvironmentSubsystem_Deinitialize (s : UEnvironmentSubsystemVolumes)
    : UEnvironmentSubsystemVolumes :=
  mkEnvironmentVolumes (mkEnvironmentSubsystem ∅ nullptr ∅) [].

Inductive VolumeCall :=
| Call_RegisterVolume (Volume : UEnvironmentVolumeRef)
| Call_UnregisterVolume (Volume : UEnvironmentVolumeRef).

Definition DoVolumeCall (s : UEnvironmentSubsystemVolumes) (call : VolumeCall)
    : UEnvironmentSubsystemVolumes :=
  match call with
  | Call_RegisterVolume Volume => RegisterVolume s Volume
  | Call_UnregisterVolume Volume => UnregisterVolume s Volume
  end.

Definition DoVolumeCalls (s : UEnvironmentSubsystemVolumes) (calls : list VolumeCall)
    : UEnvironmentSubsystemVolumes :=
  fold_left DoVolumeCall calls s.

(** The last call in [calls] that names [Volume], if any. *)
Definition LastVolumeCall (Volume : UEnvironmentVolumeRef) (calls : list VolumeCall)
    : option VolumeCall :=
  List.find (fun call => match call with
                         | Call_RegisterVolume v => N.eqb v Volume
                         | Call_UnregisterVolume v => N.eqb v Volume
                         end) (rev calls).

Definition INT_MIN : Z := -2147483648.

(** One iteration of the loop of [FindVolumeAtLocation].  The state is
    ([BestVolume], [BestPriority]).  [Inside Volume] is the outcome of the
    test [DistSq < 1.0f] made for the volume at the queried location. *)
Definition FindVolume_step (Objects : VolumeObjects) (Inside : UEnvironmentVolumeRef -> bool)
    (Best : UEnvironmentVolumeRef * Z) (Volume : UEnvironmentVolumeRef)
    : UEnvironmentVolumeRef * Z :=
  if N.eqb Volume 0 then Best
  else match Objects !! Volume with
       | None => Best
       | Some V =>
           if Inside Volume
           then if Z.ltb (snd Best) (Priority V) then (Volume, Priority V) else Best
           else Best
       end.

Definition FindVolumeAtLocation (Objects : VolumeObjects)
    (Inside : UEnvironmentVolumeRef -> bool) (s : UEnvironmentSubsystemVolumes)
    : UEnvironmentVolumeRef :=
  fst (fold_left (FindVolume_step Objects Inside) (RegisteredVolumes s) (0%N, INT_MIN)).

(** [GetMediumAtLocation]. *)
Definition GetMediumAtLocation (Objects : VolumeObjects)
    (Inside : UEnvironmentVolumeRef -> bool) (s : UEnvironmentSubsystemVolumes)
    : FMediumSpecId :=
  let Volume := FindVolumeAtLocation Objects Inside s in
  let FromDefault :=
    match DefaultMediumSpec (EnvironmentSpecs s) with
    | Some Default => UMediumSpec.SpecId Default
    | None => mkMediumSpecId NAME_None
    end in
  if N.eqb Volume 0 then FromDefault
  else match Objects !! Volume with
       | Some V =>
           if FMediumSpecId_IsValid (Volume_MediumSpecId V)
           then Volume_MediumSpecId V
           else FromDefault
       | None => FromDefault
       end.


(* ===================================================================== *)
(** * BiomeSubsystem.h / BiomeSubsystem.cpp: the biome registry *)
(* ===================================================================== *)

Record FBiomeId := mkBiomeId { BiomeId_Id : FName }.

(** [IsValid() const { return Id != NAME_None; }] *)
Definition FBiomeId_IsValid (Id : FBiomeId) : bool :=
  negb (String.eqb (BiomeId_Id Id) NAME_None).

Record FVector2D := mkVector2D { Vec2X : double; Vec2Y : double }.

Module FBiomeSpec.
Record t := mk {
  BiomeId : FBiomeId;
  DisplayName : FString;
  DefaultSurfaceSpecId : FSurfaceSpecId;
  DefaultMediumSpecId : FMediumSpecId;
  RVTChannel : Z;
  TemperatureModifier : float;
  Humidity : float;
  WindMultiplier : float;
  AltitudeRange : FVector2D;
  SlopeRange : FVector2D
}.
End FBiomeSpec.

(** The registry members of [UBiomeSubsystem]. *)
Record UBiomeSubsystem := mkBiomeSubsystem {
  BiomeSpecs : gmap FName FBiomeSpec.t;
  DefaultBiomeId : FBiomeId
}.

Definition UBiomeSubsystem_new : UBiomeSubsystem :=
  mkBiomeSubsystem ∅ (mkBiomeId NAME_None).

Definition RegisterBiomeSpec (s : UBiomeSubsystem) (Spec : FBiomeSpec.t) : UBiomeSubsystem :=
  if FBiomeId_IsValid (FBiomeSpec.BiomeId Spec)
  then mkBiomeSubsystem (<[ BiomeId_Id (FBiomeSpec.BiomeId Spec) := Spec ]> (BiomeSpecs s))
                        (DefaultBiomeId s)
  else s.

(** [GetBiomeSpec]: the spec found, or [nullptr]. *)
Definition GetBiomeSpec (s : UBiomeSubsystem) (BiomeId : FBiomeId) : option FBiomeSpec.t :=
  if negb (FBiomeId_IsValid BiomeId) then None
  else BiomeSpecs s !! BiomeId_Id BiomeId.

Definition SetDefaultBiome (s : UBiomeSubsystem) (BiomeId : FBiomeId) : UBiomeSubsystem :=
  mkBiomeSubsystem (BiomeSpecs s) BiomeId.

Definition GetAllBiomeIds (s : UBiomeSubsystem) : list FBiomeId :=
  map (fun Pair => FBiomeSpec.BiomeId (snd Pair)) (map_to_list (BiomeSpecs s)).

Definition GetSurfaceSpecForBiome (s : UBiomeSubsystem) (BiomeId : FBiomeId) : FSurfaceSpecId :=
  match GetBiomeSpec s BiomeId with
  | Some Spec => FBiomeSpec.DefaultSurfaceSpecId Spec
  | None => mkSurfaceSpecId NAME_None
  end.

Definition GetMediumSpecForBiome (s : UBiomeSubsystem) (BiomeId : FBiomeId) : FMediumSpecId :=
  match GetBiomeSpec s BiomeId with
  | Some Spec => FBiomeSpec.DefaultMediumSpecId Spec
  | None => mkMediumSpecId NAME_None
  end.

(** [Deinitialize]. *)
Definition UBiomeSubsystem_Deinitialize (s : UBiomeSubsystem) : UBiomeSubsystem :=
  mkBiomeSubsystem ∅ (mkBiomeId NAME_None).

Inductive BiomeCall :=
| Call_RegisterBiomeSpec (Spec : FBiomeSpec.t)
| Call_SetDefaultBiome (BiomeId : FBiomeId).

Definition DoBiomeCall (s : UBiomeSubsystem) (call : BiomeCall) : UBiomeSubsystem :=
  match call with
  | Call_RegisterBiomeSpec Spec => RegisterBiomeSpec s Spec
  | Call_SetDefaultBiome BiomeId => SetDefaultBiome s BiomeId
  end.

Definition DoBiomeCalls (s : UBiomeSubsystem) (calls : list BiomeCall) : UBiomeSubsystem :=
  fold_left DoBiomeCall calls s.

(* ===================================================================== *)
(** * SpecPackLoader.cpp: validation and directory loading *)
(* ===================================================================== *)

(** The further engine services these functions call: [FJsonObject::HasField],
    [IPlatformFile::FindFilesRecursively] (the files found under a directory
    for an extension) and [FString::Contains]. *)
Class SpecPackFileEngine (engine : SpecPackEngine) := {
  HasField : FJsonObject -> FString -> bool;
  FindFilesRecursively : FString -> FString -> list FString;
  Contains : FString -> FString -> bool
}.

Section SpecPackValidation.
Context {engine : SpecPackEngine} {files : SpecPackFileEngine engine}.

(** [ValidateSpecPack]: the result and the value of [OutErrorMessage] after
    the call. *)
Definition ValidateSpecPack (FilePath : FString) (OutErrorMessage : FString)
    : bool * FString :=
  match LoadFileToString FilePath with
  | None => (false, "Cannot read file: " +:+ FilePath)
  | Some JsonString =>
      match Deserialize JsonString with
      | None => (false, "Invalid JSON syntax")
      | Some RootObject =>
          if negb (HasField RootObject "pack_id")
          then (false, "Missing required field: pack_id")
          else if negb (HasField RootObject "version")
          then (false, "Missing required field: version")
          else if HasField RootObject "surface_specs"
                  && negb (bool_decide (is_Some (TryGetArrayField RootObject "surface_specs")))
          then (false, "surface_specs must be an array")
          else if HasField RootObject "medium_specs"
                  && negb (bool_decide (is_Some (TryGetArrayField RootObject "medium_specs")))
          then (false, "medium_specs must be an array")
          else (true, OutErrorMessage)
      end
  end.



Definition LoadDefaultSpecPack (l : USpecPackLoader)
    : FSpecPackLoadResult * USpecPackLoader :=
  LoadSpecPack l (DefaultSpecPackPath l).


End SpecPackValidation.

(** The sample engine completed: a directory with the three sample files and
    a manifest file. *)
Definition ToyFileEngine : SpecPackFileEngine ToyEngine := {|
  HasField := fun (o : @FJsonObject ToyEngine) name =>
    match ToyField o name with Some _ => true | None => false end;
  FindFilesRecursively := fun dir ext =>
    if String.eqb dir "SpecPacks"
    then [ "Core.json"; "manifest.json"; "Broken.json" ]
    else [];
  Contains := fun s sub =>
    match String.index 0 sub s with Some _ => true | None => false end
|}.

(* ===================================================================== *)
(** * Notions used to state properties of the flush output *)
(* ===================================================================== *)

(** The file of a cell has an array of at least one delta type. *)
Definition CellDataHasArray (d : CellData) : Prop :=
  is_Some (surface_deltas d) \/ is_Some (fracture_deltas d)
  \/ is_Some (transform_deltas d) \/ is_Some (spawn_deltas d)
  \/ is_Some (remove_deltas d) \/ is_Some (assembly_deltas d).

(** No array of the file is empty. *)
Definition CellDataNoEmptyArray (d : CellData) : Prop :=
  surface_deltas d <> Some [] /\ fracture_deltas d <> Some []
  /\ transform_deltas d <> Some [] /\ spawn_deltas d <> Some []
  /\ remove_deltas d <> Some [] /\ assembly_deltas d <> Some [].

(** No map of the store keeps an empty array, and every dirty cell has a
    delta. *)
Definition StoreWellFormed (s : UFileDeltaStore) : Prop :=
  (forall c, SurfaceDeltas s !! c <> Some [])
  /\ (forall c, FractureDeltas s !! c <> Some [])
  /\ (forall c, TransformDeltas s !! c <> Some [])
  /\ (forall c, SpawnDeltas s !! c <> Some [])
  /\ (forall c, RemoveDeltas s !! c <> Some [])
  /\ (forall c, AssemblyDeltas s !! c <> Some [])
  /\ (forall c, c ∈ DirtyCells s -> HasDeltas s c).

(** The characters [%d] prints: the decimal digits and the minus sign
    (character 45). *)
Definition is_number_char (a : Ascii.ascii) : bool :=
  match Ascii.is_nat a with
  | Some _ => true
  | None => Ascii.eqb a (Ascii.ascii_of_nat 45)
  end.

Fixpoint number_string (s : string) : bool :=
  match s with
  | EmptyString => true
  | String a s' => is_number_char a && number_string s'
  end.

(** The task launched by flushing the sample store. *)
Definition sampleTask : FlushTask :=
  match snd (Flush sampleStore) with
  | Some t => t
  | None => mkTask EmptyString [] (mkCapture ∅ ∅ ∅ ∅ ∅ ∅)
  end.

(* ===================================================================== *)
(** * Properties of the delta store *)
(* ===================================================================== *)

Section MapHelpers.
Context {A : Type}.
Implicit Types (Map Copy : gmap FWorldCellKey (list A)) (Key c : FWorldCellKey) (Delta : A).

(** Reading after [FindOrAdd(Key).Add(Delta)]: [Delta] is at the end of the
    array of [Key]; the arrays of the other keys are as before. *)
Lemma Find_or_empty_FindOrAdd_Add Map Key Delta c :
  Find_or_empty (FindOrAdd_Add Map Key Delta) c
  = Find_or_empty Map c ++ (if decide (Key = c) then [Delta] else []).
Proof.
  unfold Find_or_empty, FindOrAdd_Add.
  destruct (decide (Key = c)) as [->|Hne].
  - rewrite lookup_insert_eq. reflexivity.
  - rewrite lookup_insert_ne by assumption. rewrite app_nil_r. reflexivity.
Qed.

Lemma Find_or_empty_empty c : Find_or_empty (∅ : gmap FWorldCellKey (list A)) c = [].
Proof. unfold Find_or_empty. rewrite lookup_empty. reflexivity. Qed.

Lemma Find_or_empty_delete Map Key c :
  Find_or_empty (delete Key Map) c = if decide (Key = c) then [] else Find_or_empty Map c.
Proof.
  unfold Find_or_empty. destruct (decide (Key = c)) as [->|Hne].
  - rewrite lookup_delete_eq. reflexivity.
  - rewrite lookup_delete_ne by assumption. reflexivity.
Qed.

(** One step of the capture loop, read at cell [c]. *)
Lemma CopyFound_lookup Map Copy Key c :
  CopyFound Map Copy Key !! c
  = match (if decide (c = Key) then Map !! c else None) with
    | Some Found => Some Found
    | None => Copy !! c
    end.
Proof.
  unfold CopyFound. destruct (decide (c = Key)) as [->|Hne].
  - destruct (Map !! Key) as [Found|]; [apply lookup_insert_eq | reflexivity].
  - destruct (Map !! Key) as [Found|]; [|reflexivity].
    apply lookup_insert_ne. congruence.
Qed.

(** The capture loop of [Flush] restricted to one map: the copy receives
    the entries the live map has at the visited cells. *)
Lemma CopyFound_fold_lookup Map (cells : list FWorldCellKey) Copy c :
  fold_left (CopyFound Map) cells Copy !! c
  = match (if decide (c ∈ cells) then Map !! c else None) with
    | Some Found => Some Found
    | None => Copy !! c
    end.
Proof.
  revert Copy. induction cells as [|k cells IH]; intros Copy; cbn [fold_left].
  - rewrite decide_False by apply not_elem_of_nil. reflexivity.
  - rewrite IH, CopyFound_lookup.
    destruct (decide (c ∈ cells)) as [Hin|Hnin].
    + rewrite (decide_True (P := c ∈ k :: cells)) by (right; exact Hin).
      destruct (Map !! c); [reflexivity|].
      destruct (decide (c = k)); reflexivity.
    + destruct (decide (c = k)) as [->|Hne].
      * rewrite (decide_True (P := k ∈ k :: cells)) by left. reflexivity.
      * rewrite (decide_False (P := c ∈ k :: cells)); [reflexivity|].
        intros Hin. apply elem_of_cons in Hin. destruct Hin; contradiction.
Qed.

End MapHelpers.

(** ** One append call, seen through each getter *)

Lemma AppendAll_cons (s : UFileDeltaStore) (d : FDelta) (ds : list FDelta) :
  AppendAll s (d :: ds) = AppendAll (Append s d) ds.
Proof. reflexivity. Qed.

Ltac solve_get_after_append d :=
  destruct d; cbn;
  rewrite ?Find_or_empty_FindOrAdd_Add, ?app_nil_r;
  try reflexivity;
  case_decide; rewrite ?app_nil_r; reflexivity.

Lemma GetSurfaceDeltas_Append s d c :
  GetSurfaceDeltas (Append s d) c = GetSurfaceDeltas s c ++ surfaceAppended c [d].
Proof. unfold GetSurfaceDeltas. solve_get_after_append d. Qed.

Lemma GetFractureDeltas_Append s d c :
  GetFractureDeltas (Append s d) c = GetFractureDeltas s c ++ fractureAppended c [d].
Proof. unfold GetFractureDeltas. solve_get_after_append d. Qed.

Lemma GetTransformDeltas_Append s d c :
  GetTransformDeltas (Append s d) c = GetTransformDeltas s c ++ transformAppended c [d].
Proof. unfold GetTransformDeltas. solve_get_after_append d. Qed.

Lemma GetSpawnDeltas_Append s d c :
  GetSpawnDeltas (Append s d) c = GetSpawnDeltas s c ++ spawnAppended c [d].
Proof. unfold GetSpawnDeltas. solve_get_after_append d. Qed.

Lemma GetRemoveDeltas_Append s d c :
  GetRemoveDeltas (Append s d) c = GetRemoveDeltas s c ++ removeAppended c [d].
Proof. unfold GetRemoveDeltas. solve_get_after_append d. Qed.

Lemma GetAssemblyDeltas_Append s d c :
  GetAssemblyDeltas (Append s d) c = GetAssemblyDeltas s c ++ assemblyAppended c [d].
Proof. unfold GetAssemblyDeltas. solve_get_after_append d. Qed.

Lemma DirtyCells_Append s d :
  DirtyCells (Append s d) = {[ DeltaCellKey d ]} ∪ DirtyCells s.
Proof. destruct d; reflexivity. Qed.

(** An append for another cell leaves every array of cell [c] alone. *)
Lemma Append_other_cell s d c :
  DeltaCellKey d <> c ->
  GetSurfaceDeltas (Append s d) c = GetSurfaceDeltas s c
  /\ GetFractureDeltas (Append s d) c = GetFractureDeltas s c
  /\ GetTransformDeltas (Append s d) c = GetTransformDeltas s c
  /\ GetSpawnDeltas (Append s d) c = GetSpawnDeltas s c
  /\ GetRemoveDeltas (Append s d) c = GetRemoveDeltas s c
  /\ GetAssemblyDeltas (Append s d) c = GetAssemblyDeltas s c.
Proof.
  intros Hne.
  rewrite GetSurfaceDeltas_Append, GetFractureDeltas_Append, GetTransformDeltas_Append,
    GetSpawnDeltas_Append, GetRemoveDeltas_Append, GetAssemblyDeltas_Append.
  destruct d; cbn in *; rewrite ?decide_False by assumption;
    rewrite ?app_nil_r; repeat split; reflexivity.
Qed.

(** ** A sequence of append calls *)

Lemma surfaceAppended_cons c d ds :
  surfaceAppended c (d :: ds) = surfaceAppended c [d] ++ surfaceAppended c ds.
Proof. unfold surfaceAppended. cbn [flat_map]. rewrite app_nil_r. reflexivity. Qed.
Lemma fractureAppended_cons c d ds :
  fractureAppended c (d :: ds) = fractureAppended c [d] ++ fractureAppended c ds.
Proof. unfold fractureAppended. cbn [flat_map]. rewrite app_nil_r. reflexivity. Qed.
Lemma transformAppended_cons c d ds :
  transformAppended c (d :: ds) = transformAppended c [d] ++ transformAppended c ds.
Proof. unfold transformAppended. cbn [flat_map]. rewrite app_nil_r. reflexivity. Qed.
Lemma spawnAppended_cons c d ds :
  spawnAppended c (d :: ds) = spawnAppended c [d] ++ spawnAppended c ds.
Proof. unfold spawnAppended. cbn [flat_map]. rewrite app_nil_r. reflexivity. Qed.
Lemma removeAppended_cons c d ds :
  removeAppended c (d :: ds) = removeAppended c [d] ++ removeAppended c ds.
Proof. unfold removeAppended. cbn [flat_map]. rewrite app_nil_r. reflexivity. Qed.
Lemma assemblyAppended_cons c d ds :
  assemblyAppended c (d :: ds) = assemblyAppended c [d] ++ assemblyAppended c ds.
Proof. unfold assemblyAppended. cbn [flat_map]. rewrite app_nil_r. reflexivity. Qed.

Lemma AppendAll_gets s ds c :
  GetSurfaceDeltas (AppendAll s ds) c = GetSurfaceDeltas s c ++ surfaceAppended c ds
  /\ GetFractureDeltas (AppendAll s ds) c = GetFractureDeltas s c ++ fractureAppended c ds
  /\ GetTransformDeltas (AppendAll s ds) c = GetTransformDeltas s c ++ transformAppended c ds
  /\ GetSpawnDeltas (AppendAll s ds) c = GetSpawnDeltas s c ++ spawnAppended c ds
  /\ GetRemoveDeltas (AppendAll s ds) c = GetRemoveDeltas s c ++ removeAppended c ds
  /\ GetAssemblyDeltas (AppendAll s ds) c = GetAssemblyDeltas s c ++ assemblyAppended c ds.
Proof.
  revert s. induction ds as [|d ds IH]; intros s.
  - cbn. rewrite !app_nil_r. repeat split; reflexivity.
  - rewrite AppendAll_cons.
    destruct (IH (Append s d)) as (H1 & H2 & H3 & H4 & H5 & H6).
    rewrite H1, H2, H3, H4, H5, H6.
    rewrite GetSurfaceDeltas_Append, GetFractureDeltas_Append, GetTransformDeltas_Append,
      GetSpawnDeltas_Append, GetRemoveDeltas_Append, GetAssemblyDeltas_Append.
    rewrite (surfaceAppended_cons c d ds), (fractureAppended_cons c d ds),
      (transformAppended_cons c d ds), (spawnAppended_cons c d ds),
      (removeAppended_cons c d ds), (assemblyAppended_cons c d ds).
    rewrite <- !app_assoc. repeat split; reflexivity.
Qed.

Lemma AppendAll_dirty s ds :
  DirtyCells (AppendAll s ds) = DirtyCells s ∪ list_to_set (map DeltaCellKey ds).
Proof.
  revert s. induction ds as [|d ds IH]; intros s.
  - cbn [map AppendAll fold_left]. rewrite list_to_set_nil, (right_id_L ∅ (∪)). reflexivity.
  - rewrite AppendAll_cons, IH, DirtyCells_Append. cbn [map].
    rewrite list_to_set_cons, (comm_L (∪) {[ DeltaCellKey d ]} (DirtyCells s)).
    rewrite <- (assoc_L (∪)). reflexivity.
Qed.

Lemma Get_new (ProjectSavedDir : FString) (c : FWorldCellKey) :
  GetSurfaceDeltas (UFileDeltaStore_new ProjectSavedDir) c = []
  /\ GetFractureDeltas (UFileDeltaStore_new ProjectSavedDir) c = []
  /\ GetTransformDeltas (UFileDeltaStore_new ProjectSavedDir) c = []
  /\ GetSpawnDeltas (UFileDeltaStore_new ProjectSavedDir) c = []
  /\ GetRemoveDeltas (UFileDeltaStore_new ProjectSavedDir) c = []
  /\ GetAssemblyDeltas (UFileDeltaStore_new ProjectSavedDir) c = [].
Proof. repeat split; apply Find_or_empty_empty. Qed.

(** One call of each append method: the delta is the last element of the
    array of its own cell. *)
Lemma Append_own_cell (s : UFileDeltaStore) (d : FDelta) :
  match d with
  | SurfaceTile x =>
      GetSurfaceDeltas (AppendSurfaceDelta s x) (FSurfaceTileDelta.CellKey x)
      = GetSurfaceDeltas s (FSurfaceTileDelta.CellKey x) ++ [x]
  | Fracture x =>
      GetFractureDeltas (AppendFractureDelta s x) (FFractureDelta.CellKey x)
      = GetFractureDeltas s (FFractureDelta.CellKey x) ++ [x]
  | Transform x =>
      GetTransformDeltas (AppendTransformDelta s x) (FTransformDelta.CellKey x)
      = GetTransformDeltas s (FTransformDelta.CellKey x) ++ [x]
  | Spawn x =>
      GetSpawnDeltas (AppendSpawnDelta s x) (FSpawnDelta.CellKey x)
      = GetSpawnDeltas s (FSpawnDelta.CellKey x) ++ [x]
  | Remove x =>
      GetRemoveDeltas (AppendRemoveDelta s x) (FRemoveDelta.CellKey x)
      = GetRemoveDeltas s (FRemoveDelta.CellKey x) ++ [x]
  | Assembly x =>
      GetAssemblyDeltas (AppendAssemblyDelta s x) (FAssemblyDelta.CellKey x)
      = GetAssemblyDeltas s (FAssemblyDelta.CellKey x) ++ [x]
  end.
Proof.
  destruct d;
    unfold GetSurfaceDeltas, GetFractureDeltas, GetTransformDeltas, GetSpawnDeltas,
      GetRemoveDeltas, GetAssemblyDeltas, AppendSurfaceDelta, AppendFractureDelta,
      AppendTransformDelta, AppendSpawnDelta, AppendRemoveDelta, AppendAssemblyDelta;
    cbn [SurfaceDeltas FractureDeltas TransformDeltas SpawnDeltas RemoveDeltas AssemblyDeltas];
    rewrite Find_or_empty_FindOrAdd_Add, decide_True by reflexivity;
    reflexivity.
Qed.

(** C1.  Delta accumulation is cell-keyed and append-only.

    (a) One call: for each of the six delta types, [Append*Delta(d)] puts
    [d] at the end of the array kept for [d.CellKey], and [d.CellKey] is
    dirty afterwards.

    (b) Any sequence [ds] of append calls on any store [s]: for every cell
    [c] and each delta type, [Get*Deltas(c)] returns what it returned before
    followed by the deltas of that type in [ds] whose [CellKey] is [c], in
    call order.  So a call changes no array of another cell and no array of
    another delta type (for [ds] a single call the added part is empty
    there).  The dirty set has gained exactly the cells of the calls.

    (c) On a newly constructed store [Get*Deltas(c)] is exactly the deltas
    appended for [c] so far, the empty array when there are none. *)
Theorem delta_accumulation_cell_keyed_append_only :
  forall (s : UFileDeltaStore) (ProjectSavedDir : FString)
         (d : FDelta) (ds : list FDelta) (c : FWorldCellKey),
    let s' := AppendAll s ds in
    let fresh := AppendAll (UFileDeltaStore_new ProjectSavedDir) ds in
    (match d with
     | SurfaceTile x =>
         GetSurfaceDeltas (AppendSurfaceDelta s x) (FSurfaceTileDelta.CellKey x)
         = GetSurfaceDeltas s (FSurfaceTileDelta.CellKey x) ++ [x]
     | Fracture x =>
         GetFractureDeltas (AppendFractureDelta s x) (FFractureDelta.CellKey x)
         = GetFractureDeltas s (FFractureDelta.CellKey x) ++ [x]
     | Transform x =>
         GetTransformDeltas (AppendTransformDelta s x) (FTransformDelta.CellKey x)
         = GetTransformDeltas s (FTransformDelta.CellKey x) ++ [x]
     | Spawn x =>
         GetSpawnDeltas (AppendSpawnDelta s x) (FSpawnDelta.CellKey x)
         = GetSpawnDeltas s (FSpawnDelta.CellKey x) ++ [x]
     | Remove x =>
         GetRemoveDeltas (AppendRemoveDelta s x) (FRemoveDelta.CellKey x)
         = GetRemoveDeltas s (FRemoveDelta.CellKey x) ++ [x]
     | Assembly x =>
         GetAssemblyDeltas (AppendAssemblyDelta s x) (FAssemblyDelta.CellKey x)
         = GetAssemblyDeltas s (FAssemblyDelta.CellKey x) ++ [x]
     end
     /\ DeltaCellKey d ∈ DirtyCells (Append s d))
    /\ (GetSurfaceDeltas s' c = GetSurfaceDeltas s c ++ surfaceAppended c ds
        /\ GetFractureDeltas s' c = GetFractureDeltas s c ++ fractureAppended c ds
        /\ GetTransformDeltas s' c = GetTransformDeltas s c ++ transformAppended c ds
        /\ GetSpawnDeltas s' c = GetSpawnDeltas s c ++ spawnAppended c ds
        /\ GetRemoveDeltas s' c = GetRemoveDeltas s c ++ removeAppended c ds
        /\ GetAssemblyDeltas s' c = GetAssemblyDeltas s c ++ assemblyAppended c ds
        /\ DirtyCells s' = DirtyCells s ∪ list_to_set (map DeltaCellKey ds))
    /\ (GetSurfaceDeltas fresh c = surfaceAppended c ds
        /\ GetFractureDeltas fresh c = fractureAppended c ds
        /\ GetTransformDeltas fresh c = transformAppended c ds
        /\ GetSpawnDeltas fresh c = spawnAppended c ds
        /\ GetRemoveDeltas fresh c = removeAppended c ds
        /\ GetAssemblyDeltas fresh c = assemblyAppended c ds).
Proof.
  intros s ProjectSavedDir d ds c s' fresh. subst s' fresh.
  split; [split; [apply Append_own_cell|]|].
  { rewrite DirtyCells_Append. apply elem_of_union_l, elem_of_singleton. reflexivity. }
  split.
  { destruct (AppendAll_gets s ds c) as (H1 & H2 & H3 & H4 & H5 & H6).
    repeat split; try assumption. apply AppendAll_dirty. }
  destruct (AppendAll_gets (UFileDeltaStore_new ProjectSavedDir) ds c)
    as (H1 & H2 & H3 & H4 & H5 & H6).
  destruct (Get_new ProjectSavedDir c) as (N1 & N2 & N3 & N4 & N5 & N6).
  rewrite H1, H2, H3, H4, H5, H6, N1, N2, N3, N4, N5, N6.
  repeat split; reflexivity.
Qed.

(** ** Flush *)

Lemma DirtyCells_Num_zero (s : UFileDeltaStore) :
  (size (DirtyCells s) =? 0)%nat = true <-> DirtyCells s = ∅.
Proof.
  rewrite Nat.eqb_eq. split.
  - intros H. apply size_empty_iff in H. apply leibniz_equiv. exact H.
  - intros ->. apply size_empty.
Qed.

Lemma Flush_no_op (s : UFileDeltaStore) :
  bIsInitialized s = false \/ DirtyCells s = ∅ -> Flush s = (s, None).
Proof.
  intros [H|H]; unfold Flush.
  - rewrite H. reflexivity.
  - apply DirtyCells_Num_zero in H. rewrite H, orb_true_r. reflexivity.
Qed.

Lemma Flush_state (s : UFileDeltaStore) :
  fst (Flush s)
  = mkStore (CurrentWorldName s) (BaseSaveDirectory s) (bIsInitialized s)
            (SurfaceDeltas s) (FractureDeltas s) (TransformDeltas s)
            (SpawnDeltas s) (RemoveDeltas s) (AssemblyDeltas s)
            (if bIsInitialized s then ∅ else DirtyCells s).
Proof.
  unfold Flush. destruct s as [w b i m1 m2 m3 m4 m5 m6 D]; cbn.
  destruct i; cbn; [|reflexivity].
  destruct (size D =? 0)%nat eqn:HD; cbn; [|reflexivity].
  apply (DirtyCells_Num_zero (mkStore w b true m1 m2 m3 m4 m5 m6 D)) in HD.
  cbn in HD. rewrite HD. reflexivity.
Qed.

(** C10.  [Flush] never changes the stored deltas: every getter returns
    after the call what it returned before it.  The store after the call is
    the store before it with, at most, the dirty set emptied (it is emptied
    when the store is initialised; an initialised store with no dirty cell had
    it empty already), and when the store is not initialised or no cell is
    dirty the call leaves the whole state as it was and launches nothing. *)
Theorem flush_never_changes_stored_deltas :
  forall (s : UFileDeltaStore) (c : FWorldCellKey),
    let s' := fst (Flush s) in
    (GetSurfaceDeltas s' c = GetSurfaceDeltas s c
     /\ GetFractureDeltas s' c = GetFractureDeltas s c
     /\ GetTransformDeltas s' c = GetTransformDeltas s c
     /\ GetSpawnDeltas s' c = GetSpawnDeltas s c
     /\ GetRemoveDeltas s' c = GetRemoveDeltas s c
     /\ GetAssemblyDeltas s' c = GetAssemblyDeltas s c)
    /\ s' = mkStore (CurrentWorldName s) (BaseSaveDirectory s) (bIsInitialized s)
                    (SurfaceDeltas s) (FractureDeltas s) (TransformDeltas s)
                    (SpawnDeltas s) (RemoveDeltas s) (AssemblyDeltas s)
                    (if bIsInitialized s then ∅ else DirtyCells s)
    /\ (bIsInitialized s = false \/ DirtyCells s = ∅ -> Flush s = (s, None)).
Proof.
  intros s c s'. subst s'.
  split; [|split; [apply Flush_state | apply Flush_no_op]].
  rewrite Flush_state. repeat split; reflexivity.
Qed.

(** The task launched by [Flush] owns copies: for each delta type the copy
    has, at every cell that was dirty, the array the live map had when
    [Flush] ran, and nothing at the other cells; the cells to flush are the
    dirty cells.  The body of the task ([FlushTask_run]) is a function of
    these captures alone. *)
Lemma CaptureCell_fold (s : UFileDeltaStore) (cells : list FWorldCellKey) (cap : FlushCapture) :
  fold_left (CaptureCell s) cells cap
  = mkCapture (fold_left (CopyFound (SurfaceDeltas s)) cells (SurfaceCopy cap))
              (fold_left (CopyFound (FractureDeltas s)) cells (FractureCopy cap))
              (fold_left (CopyFound (TransformDeltas s)) cells (TransformCopy cap))
              (fold_left (CopyFound (SpawnDeltas s)) cells (SpawnCopy cap))
              (fold_left (CopyFound (RemoveDeltas s)) cells (RemoveCopy cap))
              (fold_left (CopyFound (AssemblyDeltas s)) cells (AssemblyCopy cap)).
Proof.
  revert cap. induction cells as [|k cells IH]; intros cap; cbn [fold_left].
  - destruct cap; reflexivity.
  - rewrite IH. reflexivity.
Qed.

Lemma Flush_task_copies (s s' : UFileDeltaStore) (t : FlushTask) (c : FWorldCellKey) :
  Flush s = (s', Some t) ->
  (forall k, k ∈ CellsToFlush t <-> k ∈ DirtyCells s)
  /\ SurfaceCopy (Captured t) !! c = (if decide (c ∈ DirtyCells s) then SurfaceDeltas s !! c else None)
  /\ FractureCopy (Captured t) !! c = (if decide (c ∈ DirtyCells s) then FractureDeltas s !! c else None)
  /\ TransformCopy (Captured t) !! c = (if decide (c ∈ DirtyCells s) then TransformDeltas s !! c else None)
  /\ SpawnCopy (Captured t) !! c = (if decide (c ∈ DirtyCells s) then SpawnDeltas s !! c else None)
  /\ RemoveCopy (Captured t) !! c = (if decide (c ∈ DirtyCells s) then RemoveDeltas s !! c else None)
  /\ AssemblyCopy (Captured t) !! c = (if decide (c ∈ DirtyCells s) then AssemblyDeltas s !! c else None).
Proof.
  unfold Flush. destruct (negb (bIsInitialized s) || (size (DirtyCells s) =? 0)%nat);
    [discriminate|].
  intros H. injection H as _ <-. cbn [CellsToFlush Captured].
  split; [intros k; apply elem_of_elements|].
  rewrite CaptureCell_fold. cbn [SurfaceCopy FractureCopy TransformCopy SpawnCopy RemoveCopy AssemblyCopy].
  rewrite !CopyFound_fold_lookup, !lookup_empty.
  destruct (decide (c ∈ elements (DirtyCells s))) as [Hin|Hnin];
    destruct (decide (c ∈ DirtyCells s)) as [Hd|Hnd].
  - repeat split; match goal with |- context [?m !! c] => destruct (m !! c); reflexivity end.
  - exfalso. apply Hnd, elem_of_elements, Hin.
  - exfalso. apply Hnin, elem_of_elements, Hd.
  - repeat split; reflexivity.
Qed.

(** ** The store on sample data *)

Example sampleStore_surface_cellA :
  GetSurfaceDeltas sampleStore cellA = [snow; wet].
Proof. reflexivity. Qed.

Example sampleStore_surface_cellB :
  GetSurfaceDeltas sampleStore cellB = [].
Proof. reflexivity. Qed.

Example sampleStore_transform_cellB :
  GetTransformDeltas sampleStore cellB = [moved]
  /\ GetTransformDeltas sampleStore cellA = []
  /\ GetRemoveDeltas sampleStore cellA = [removed].
Proof. repeat split; reflexivity. Qed.

Example sampleStore_dirty :
  cellA ∈ DirtyCells sampleStore /\ cellB ∈ DirtyCells sampleStore.
Proof. split; vm_compute; reflexivity. Qed.

Example sampleStore_flush :
  GetSurfaceDeltas (fst (Flush sampleStore)) cellA = [snow; wet]
  /\ DirtyCells (fst (Flush sampleStore)) = ∅
  /\ is_Some (snd (Flush sampleStore))
  /\ Flush (fst (Flush sampleStore)) = (fst (Flush sampleStore), None).
Proof.
  repeat split; try reflexivity.
  vm_compute. eexists. reflexivity.
Qed.

Example newStore_flush :
  Flush (AppendAll (UFileDeltaStore_new "Saved") sampleCalls)
  = (AppendAll (UFileDeltaStore_new "Saved") sampleCalls, None).
Proof. reflexivity. Qed.

(* ===================================================================== *)
(** * Properties of the delta records *)
(* ===================================================================== *)

(** C8, as stated, fails: a [FSurfaceTileDelta] has no [FGuid] member (the
    tile is addressed by [TileIndex] and [WorldLocation]). *)
Lemma surface_tile_delta_has_no_guid :
  ~ (forall d : FDelta,
        carriesCellKey d = true /\ carriesEntityGuid d = true
        /\ carriesListedPayload d = true /\ carriesTimestamp d = true).
Proof.
  intros H.
  destruct (H (SurfaceTile FSurfaceTileDelta.default)) as (_ & HGuid & _).
  discriminate HGuid.
Qed.

(** C8, amended.  Every one of the six delta record types carries a
    [CellKey] and a [Timestamp].  An entity GUID is carried by the five types
    that describe an actor or an assembly, and not by [FSurfaceTileDelta].
    The payload is channel+operation+value for a surface tile, the broken
    chunk list for a fracture, a transform for a transform or a spawn, the
    removal reason for a removal (none of the three listed payloads), and a
    transform with the damaged-part list for an assembly. *)
Theorem delta_records_carry_key_payload_timestamp :
  forall d : FDelta,
    carriesCellKey d = true
    /\ carriesTimestamp d = true
    /\ carriesEntityGuid d
       = match DeltaType d with EDeltaType_SurfaceTile => false | _ => true end
    /\ match DeltaType d with
       | EDeltaType_SurfaceTile => carriesChannelOperationValue d = true
       | EDeltaType_Fracture => carriesBrokenChunkList d = true
       | EDeltaType_Transform => carriesTransform d = true
       | EDeltaType_Spawn => carriesTransform d = true
       | EDeltaType_Remove =>
           carriesRemovalReason d = true /\ carriesListedPayload d = false
       | EDeltaType_Assembly =>
           carriesTransform d = true /\ carriesDamagedPartList d = true
       end.
Proof. intros d. destruct d; repeat split; reflexivity. Qed.

(* ===================================================================== *)
(** * Properties of spec resolution *)
(* ===================================================================== *)

Lemma HasRuntimeSpec_lookup (s : USurfaceQuerySubsystem) (Id : FSurfaceSpecId) :
  HasRuntimeSpec s Id
  = match RuntimeSurfaceSpecs s !! SurfaceSpecId_Id Id with Some _ => true | None => false end.
Proof.
  unfold HasRuntimeSpec. destruct (RuntimeSurfaceSpecs s !! SurfaceSpecId_Id Id) as [x|].
  - apply bool_decide_eq_true. eexists. reflexivity.
  - apply bool_decide_eq_false. intros [x Hx]. discriminate Hx.
Qed.

Lemma HasRuntimeMediumSpec_lookup (s : UEnvironmentSubsystem) (Id : FMediumSpecId) :
  HasRuntimeMediumSpec s Id
  = match RuntimeMediumSpecs s !! MediumSpecId_Id Id with Some _ => true | None => false end.
Proof.
  unfold HasRuntimeMediumSpec. destruct (RuntimeMediumSpecs s !! MediumSpecId_Id Id) as [x|].
  - apply bool_decide_eq_true. eexists. reflexivity.
  - apply bool_decide_eq_false. intros [x Hx]. discriminate Hx.
Qed.

(** A spec registered at run time is the one resolved afterwards. *)
Lemma Resolve_after_RegisterRuntimeSurfaceSpec s Id Spec OutSpec :
  ResolveSurfaceSpec (RegisterRuntimeSurfaceSpec s Id Spec) Id OutSpec = (true, Spec).
Proof.
  unfold ResolveSurfaceSpec, RegisterRuntimeSurfaceSpec. cbn [RuntimeSurfaceSpecs].
  rewrite lookup_insert_eq. reflexivity.
Qed.

Lemma Resolve_after_RegisterRuntimeMediumSpec s Id Spec OutSpec :
  ResolveMediumSpec (RegisterRuntimeMediumSpec s Id Spec) Id OutSpec = (true, Spec).
Proof.
  unfold ResolveMediumSpec, RegisterRuntimeMediumSpec. cbn [RuntimeMediumSpecs].
  rewrite lookup_insert_eq. reflexivity.
Qed.

(** The resolution functions read the runtime registry only: the DataAsset
    registry and the default asset do not influence them. *)
Lemma ResolveSurfaceSpec_reads_runtime_only s1 s2 Id Out1 Out2 :
  RuntimeSurfaceSpecs s1 = RuntimeSurfaceSpecs s2 ->
  ResolveSurfaceSpec s1 Id Out1 = ResolveSurfaceSpec s2 Id Out2.
Proof. unfold ResolveSurfaceSpec. intros ->. reflexivity. Qed.

Lemma ResolveMediumSpec_reads_runtime_only s1 s2 Id Out1 Out2 :
  RuntimeMediumSpecs s1 = RuntimeMediumSpecs s2 ->
  ResolveMediumSpec s1 Id Out1 = ResolveMediumSpec s2 Id Out2.
Proof. unfold ResolveMediumSpec. intros ->. reflexivity. Qed.

(** C2.  Spec resolution never fails.  For every subsystem state, spec id
    and previous content of the output argument, [ResolveSurfaceSpec] and
    [ResolveMediumSpec] assign the output: when the id is in the runtime
    registry the result is [true] with the registered spec, otherwise it is
    [false] with the static fallback, whose display name is "Default" for
    surfaces and "Earth Atmosphere" for media.  The boolean result is
    [HasRuntimeSpec] / [HasRuntimeMediumSpec] of the id. *)
Theorem spec_resolution_never_fails :
  forall (ss : USurfaceQuerySubsystem) (es : UEnvironmentSubsystem)
         (SurfaceId : FSurfaceSpecId) (MediumId : FMediumSpecId)
         (OutSurface : FRuntimeSurfaceSpec.t) (OutMedium : FRuntimeMediumSpec.t),
    match RuntimeSurfaceSpecs ss !! SurfaceSpecId_Id SurfaceId with
    | Some Registered =>
        ResolveSurfaceSpec ss SurfaceId OutSurface = (true, Registered)
        /\ HasRuntimeSpec ss SurfaceId = true
    | None =>
        ResolveSurfaceSpec ss SurfaceId OutSurface = (false, FallbackSurfaceSpec)
        /\ HasRuntimeSpec ss SurfaceId = false
    end
    /\ match RuntimeMediumSpecs es !! MediumSpecId_Id MediumId with
       | Some Registered =>
           ResolveMediumSpec es MediumId OutMedium = (true, Registered)
           /\ HasRuntimeMediumSpec es MediumId = true
       | None =>
           ResolveMediumSpec es MediumId OutMedium = (false, FallbackMediumSpec)
           /\ HasRuntimeMediumSpec es MediumId = false
       end
    /\ FRuntimeSurfaceSpec.DisplayName FallbackSurfaceSpec = "Default"
    /\ FRuntimeMediumSpec.DisplayName FallbackMediumSpec = "Earth Atmosphere".
Proof.
  intros ss es SurfaceId MediumId OutSurface OutMedium.
  rewrite HasRuntimeSpec_lookup, HasRuntimeMediumSpec_lookup.
  unfold ResolveSurfaceSpec, ResolveMediumSpec.
  destruct (RuntimeSurfaceSpecs ss !! SurfaceSpecId_Id SurfaceId);
    destruct (RuntimeMediumSpecs es !! MediumSpecId_Id MediumId);
    repeat split; reflexivity.
Qed.

Example resolve_registered_mud :
  ResolveSurfaceSpec
    (RegisterRuntimeSurfaceSpec surfaceWithIceAsset (mkSurfaceSpecId "Mud") MudRuntimeSpec)
    (mkSurfaceSpecId "Mud") FRuntimeSurfaceSpec.default
  = (true, MudRuntimeSpec).
Proof. reflexivity. Qed.

Example resolve_unknown_is_fallback :
  ResolveSurfaceSpec
    (RegisterRuntimeSurfaceSpec surfaceWithIceAsset (mkSurfaceSpecId "Mud") MudRuntimeSpec)
    (mkSurfaceSpecId "Sand") MudRuntimeSpec
  = (false, FallbackSurfaceSpec).
Proof. reflexivity. Qed.

(** C7, on an identifier that only the DataAsset registry knows.  The
    medium asset "Water" is registered with [RegisterMediumSpec] and found by
    [GetMediumSpec]; the surface asset "Ice" is registered with
    [RegisterSurfaceSpec] and found by [GetSurfaceSpecForMaterial].  The first
    tier of the documented order that contains either identifier is the
    DataAsset registry, yet [ResolveMediumSpec] and [ResolveSurfaceSpec]
    return [false] with the static fallback. *)
Theorem resolve_skips_registered_dataasset :
  GetMediumSpec envWithWaterAsset (mkMediumSpecId "Water") = Some WaterAsset
  /\ Documented_FirstTier_Medium envWithWaterAsset (mkMediumSpecId "Water")
     = ESpecResolveResult_DataAsset
  /\ ResolveMediumSpec envWithWaterAsset (mkMediumSpecId "Water") FRuntimeMediumSpec.default
     = (false, FallbackMediumSpec)
  /\ GetSurfaceSpecForMaterial surfaceWithIceAsset 1%N = Some IceAsset
  /\ Documented_FirstTier_Surface surfaceWithIceAsset (mkSurfaceSpecId "Ice")
     = ESpecResolveResult_DataAsset
  /\ ResolveSurfaceSpec surfaceWithIceAsset (mkSurfaceSpecId "Ice") FRuntimeSurfaceSpec.default
     = (false, FallbackSurfaceSpec).
Proof. repeat split; vm_compute; reflexivity. Qed.

(* ===================================================================== *)
(** * Properties of the SpecPack loader *)
(* ===================================================================== *)

Section SpecPackLoaderProperties.
Context {engine : SpecPackEngine}.

(** Whether the load fails is decided by the two engine calls. *)
Lemma CannotLoad_cases (FilePath : FString) :
  (CannotLoad FilePath
   /\ (LoadFileToString FilePath = None
       \/ exists JsonString, LoadFileToString FilePath = Some JsonString
                             /\ Deserialize JsonString = None))
  \/ (~ CannotLoad FilePath
      /\ exists JsonString RootObject,
           LoadFileToString FilePath = Some JsonString
           /\ Deserialize JsonString = Some RootObject).
Proof.
  unfold CannotLoad.
  destruct (LoadFileToString FilePath) as [JsonString|] eqn:HL.
  - destruct (Deserialize JsonString) as [RootObject|] eqn:HD.
    + right. split; [discriminate|]. exists JsonString, RootObject. split; [reflexivity|exact HD].
    + left. split; [reflexivity|]. right. exists JsonString. split; [reflexivity|exact HD].
  - left. split; [exact I|]. left. reflexivity.
Qed.

(** C3.  For every loader state and file path, [LoadSpecPack] returns a
    result whose [bSuccess] is [false] and whose [ErrorMessage] is non-empty
    exactly when the file cannot be read or its content does not parse as
    JSON; in every other case [bSuccess] is [true] (and [ErrorMessage] is
    empty, and the manifest of the result is cached under the path).  On a
    failure the three spec counts and the manifest of the result keep their
    initial values and the loader, with its manifest cache, is unchanged. *)
Theorem LoadSpecPack_fails_exactly_on_read_or_parse_error :
  forall (l : USpecPackLoader) (FilePath : FString),
    let Result := fst (LoadSpecPack l FilePath) in
    let l' := snd (LoadSpecPack l FilePath) in
    ((bSuccess Result = false /\ ErrorMessage Result <> EmptyString) <-> CannotLoad FilePath)
    /\ (bSuccess Result = true <-> ~ CannotLoad FilePath)
    /\ (CannotLoad FilePath ->
        SurfaceSpecsLoaded Result = 0 /\ MediumSpecsLoaded Result = 0
        /\ BiomeSpecsLoaded Result = 0
        /\ Manifest Result = FSpecPackManifest_default
        /\ l' = l)
    /\ (~ CannotLoad FilePath ->
        ErrorMessage Result = EmptyString
        /\ CachedManifests l' !! FilePath = Some (Manifest Result)).
Proof.
  intros l FilePath Result l'. subst Result l'.
  unfold LoadSpecPack, CannotLoad.
  destruct (LoadFileToString FilePath) as [JsonString|] eqn:HL.
  - destruct (Deserialize JsonString) as [RootObject|] eqn:HD; cbn.
    + split; [split; [intros [H _]; discriminate H | discriminate]|].
      split; [split; [discriminate | reflexivity]|].
      split; [discriminate|].
      intros _. split; [reflexivity|]. apply lookup_insert_eq.
    + split; [split; [reflexivity | intros _; split; [reflexivity | discriminate]]|].
      split; [split; [discriminate | intros H; exfalso; apply H; reflexivity]|].
      split; [intros _; repeat split; reflexivity|].
      intros H. exfalso. apply H. reflexivity.
  - cbn.
    split; [split; [intros _; exact I | intros _; split; [reflexivity | discriminate]]|].
    split; [split; [discriminate | intros H; exfalso; apply H; exact I]|].
    split; [intros _; repeat split; reflexivity|].
    intros H. exfalso. apply H. exact I.
Qed.

End SpecPackLoaderProperties.

(** ** The loader on the sample engine *)

Example load_core_pack :
  LoadSpecPack (engine := ToyEngine) emptyLoader "Core.json"
  = (mkLoadResult true EmptyString (mkManifest "Core" 3 "sha1:core-text" "5.7" 42 []) 1 0 0,
     mkLoader "Content/SpecPacks/Core.json"
              {[ "Core.json" := mkManifest "Core" 3 "sha1:core-text" "5.7" 42 [] ]}).
Proof. reflexivity. Qed.

Example load_broken_pack :
  LoadSpecPack (engine := ToyEngine) emptyLoader "Broken.json"
  = (mkLoadResult false "Failed to parse JSON" FSpecPackManifest_default 0 0 0, emptyLoader).
Proof. reflexivity. Qed.

Example load_missing_pack :
  LoadSpecPack (engine := ToyEngine) emptyLoader "Missing.json"
  = (mkLoadResult false "Failed to read file: Missing.json" FSpecPackManifest_default 0 0 0,
     emptyLoader).
Proof. reflexivity. Qed.

Example load_failures_are_CannotLoad :
  CannotLoad (engine := ToyEngine) "Broken.json"
  /\ CannotLoad (engine := ToyEngine) "Missing.json"
  /\ ~ CannotLoad (engine := ToyEngine) "Core.json".
Proof. repeat split. intros H. discriminate H. Qed.

(** ** The conditional parts of C10 and C3 on concrete inputs *)

(** A store that was never initialised: [Flush] returns it as it is, dirty
    cells included. *)
Lemma flush_never_changes_stored_deltas_witness :
  bIsInitialized (AppendAll (UFileDeltaStore_new "Saved") sampleCalls) = false
  /\ Flush (AppendAll (UFileDeltaStore_new "Saved") sampleCalls)
     = (AppendAll (UFileDeltaStore_new "Saved") sampleCalls, None).
Proof.
  split; [reflexivity|].
  apply (flush_never_changes_stored_deltas
           (AppendAll (UFileDeltaStore_new "Saved") sampleCalls) cellA).
  left. reflexivity.
Defined.

(** A file that cannot be read: nothing is counted and nothing is cached. *)
Lemma LoadSpecPack_fails_exactly_on_read_or_parse_error_witness :
  CannotLoad (engine := ToyEngine) "Missing.json"
  /\ SurfaceSpecsLoaded (fst (LoadSpecPack (engine := ToyEngine) emptyLoader "Missing.json")) = 0
  /\ snd (LoadSpecPack (engine := ToyEngine) emptyLoader "Missing.json") = emptyLoader.
Proof.
  split; [exact I|].
  pose proof (LoadSpecPack_fails_exactly_on_read_or_parse_error
                (engine := ToyEngine) emptyLoader "Missing.json") as H.
  cbv zeta in H. destruct H as (_ & _ & Hfail & _).
  destruct (Hfail I) as (Hs & _ & _ & _ & Hl).
  split; [exact Hs | exact Hl].
Defined.

(* ===================================================================== *)
(** * Further properties of the delta store *)
(* ===================================================================== *)

(** ** ClearCellDeltas *)

Lemma Get_ClearCellDeltas (s : UFileDeltaStore) (k c : FWorldCellKey) :
  GetSurfaceDeltas (ClearCellDeltas s k) c = (if decide (k = c) then [] else GetSurfaceDeltas s c)
  /\ GetFractureDeltas (ClearCellDeltas s k) c = (if decide (k = c) then [] else GetFractureDeltas s c)
  /\ GetTransformDeltas (ClearCellDeltas s k) c = (if decide (k = c) then [] else GetTransformDeltas s c)
  /\ GetSpawnDeltas (ClearCellDeltas s k) c = (if decide (k = c) then [] else GetSpawnDeltas s c)
  /\ GetRemoveDeltas (ClearCellDeltas s k) c = (if decide (k = c) then [] else GetRemoveDeltas s c)
  /\ GetAssemblyDeltas (ClearCellDeltas s k) c = (if decide (k = c) then [] else GetAssemblyDeltas s c).
Proof.
  unfold GetSurfaceDeltas, GetFractureDeltas, GetTransformDeltas, GetSpawnDeltas,
    GetRemoveDeltas, GetAssemblyDeltas, ClearCellDeltas.
  cbn [SurfaceDeltas FractureDeltas TransformDeltas SpawnDeltas RemoveDeltas AssemblyDeltas].
  repeat split; apply Find_or_empty_delete.
Qed.

Lemma HasDeltas_ClearCellDeltas_same (s : UFileDeltaStore) (k : FWorldCellKey) :
  ~ HasDeltas (ClearCellDeltas s k) k.
Proof.
  unfold HasDeltas.
  destruct (Get_ClearCellDeltas s k k) as (H1 & H2 & H3 & H4 & H5 & H6).
  rewrite decide_True in H1 by reflexivity. rewrite decide_True in H2 by reflexivity.
  rewrite decide_True in H3 by reflexivity. rewrite decide_True in H4 by reflexivity.
  rewrite decide_True in H5 by reflexivity. rewrite decide_True in H6 by reflexivity.
  rewrite H1, H2, H3, H4, H5, H6. intuition congruence.
Qed.

(** X1.  [ClearCellDeltas(k)] empties the six arrays of cell [k] and takes
    [k] out of the dirty set; every other cell keeps its arrays and its dirty
    mark, so the next [Flush] writes no file for [k]. *)
Theorem ClearCellDeltas_forgets_exactly_one_cell :
  forall (s : UFileDeltaStore) (k c : FWorldCellKey),
    (GetSurfaceDeltas (ClearCellDeltas s k) c
       = (if decide (k = c) then [] else GetSurfaceDeltas s c)
     /\ GetFractureDeltas (ClearCellDeltas s k) c
        = (if decide (k = c) then [] else GetFractureDeltas s c)
     /\ GetTransformDeltas (ClearCellDeltas s k) c
        = (if decide (k = c) then [] else GetTransformDeltas s c)
     /\ GetSpawnDeltas (ClearCellDeltas s k) c
        = (if decide (k = c) then [] else GetSpawnDeltas s c)
     /\ GetRemoveDeltas (ClearCellDeltas s k) c
        = (if decide (k = c) then [] else GetRemoveDeltas s c)
     /\ GetAssemblyDeltas (ClearCellDeltas s k) c
        = (if decide (k = c) then [] else GetAssemblyDeltas s c))
    /\ (c ∈ DirtyCells (ClearCellDeltas s k) <-> c ∈ DirtyCells s /\ c <> k)
    /\ match snd (Flush (ClearCellDeltas s k)) with
       | Some t => k ∉ CellsToFlush t
       | None => True
       end.
Proof.
  intros s k c. split; [apply Get_ClearCellDeltas|]. split.
  - unfold ClearCellDeltas. cbn [DirtyCells].
    rewrite elem_of_difference, elem_of_singleton. reflexivity.
  - unfold Flush.
    destruct (negb (bIsInitialized (ClearCellDeltas s k))
              || (size (DirtyCells (ClearCellDeltas s k)) =? 0)%nat); cbn; [exact I|].
    rewrite elem_of_elements, elem_of_difference, elem_of_singleton. intros [_ H].
    apply H. reflexivity.
Qed.

(** ** What a flush task writes *)

Lemma Flush_launches (s : UFileDeltaStore) :
  snd (Flush s)
  = if negb (bIsInitialized s) || (size (DirtyCells s) =? 0)%nat then None
    else Some (mkTask (PathJoin (BaseSaveDirectory s) (CurrentWorldName s))
                      (elements (DirtyCells s))
                      (fold_left (CaptureCell s) (elements (DirtyCells s))
                                 (mkCapture ∅ ∅ ∅ ∅ ∅ ∅))).
Proof.
  unfold Flush.
  destruct (negb (bIsInitialized s) || (size (DirtyCells s) =? 0)%nat); reflexivity.
Qed.

(** The captures of the loop over [cells], read at a visited cell, are the
    entries of the live maps. *)
Lemma Capture_lookup (s : UFileDeltaStore) (cells : list FWorldCellKey) (c : FWorldCellKey) :
  c ∈ cells ->
  let cap := fold_left (CaptureCell s) cells (mkCapture ∅ ∅ ∅ ∅ ∅ ∅) in
  SurfaceCopy cap !! c = SurfaceDeltas s !! c
  /\ FractureCopy cap !! c = FractureDeltas s !! c
  /\ TransformCopy cap !! c = TransformDeltas s !! c
  /\ SpawnCopy cap !! c = SpawnDeltas s !! c
  /\ RemoveCopy cap !! c = RemoveDeltas s !! c
  /\ AssemblyCopy cap !! c = AssemblyDeltas s !! c.
Proof.
  intros Hin cap. subst cap. rewrite CaptureCell_fold.
  cbn [SurfaceCopy FractureCopy TransformCopy SpawnCopy RemoveCopy AssemblyCopy].
  rewrite !CopyFound_fold_lookup, !lookup_empty.
  destruct (decide (c ∈ cells)) as [_|Hn]; [|contradiction].
  repeat split; match goal with |- context [?m !! c] => destruct (m !! c); reflexivity end.
Qed.

Lemma FlushTask_run_captured (s : UFileDeltaStore) (dir : FString) (cells : list FWorldCellKey) :
  FlushTask_run (mkTask dir cells (fold_left (CaptureCell s) cells (mkCapture ∅ ∅ ∅ ∅ ∅ ∅)))
  = map (FlushedFile dir s) cells.
Proof.
  unfold FlushTask_run. cbn [SaveDir CellsToFlush Captured].
  apply map_ext_in. intros c Hin. apply list_elem_of_In in Hin.
  destruct (Capture_lookup s cells c Hin) as (H1 & H2 & H3 & H4 & H5 & H6).
  unfold FlushedFile. rewrite H1, H2, H3, H4, H5, H6. reflexivity.
Qed.

(** X2.  When [Flush] launches a task, the store was initialised with at
    least one dirty cell; the task writes, under [BaseSaveDirectory /
    CurrentWorldName], one file for every dirty cell and for no other cell,
    and each file holds the arrays the six maps had for its cell when [Flush]
    ran (a delta type with no entry for the cell gets no field).  Afterwards
    no cell is dirty. *)
Theorem Flush_task_writes_the_dirty_cells :
  forall (s s' : UFileDeltaStore) (t : FlushTask),
    Flush s = (s', Some t) ->
    bIsInitialized s = true
    /\ DirtyCells s <> ∅
    /\ SaveDir t = PathJoin (BaseSaveDirectory s) (CurrentWorldName s)
    /\ NoDup (CellsToFlush t)
    /\ (forall c, c ∈ CellsToFlush t <-> c ∈ DirtyCells s)
    /\ FlushTask_run t = map (FlushedFile (SaveDir t) s) (CellsToFlush t)
    /\ DirtyCells s' = ∅.
Proof.
  intros s s' t H.
  pose proof (Flush_launches s) as HL. pose proof (Flush_state s) as HS.
  rewrite H in HL, HS. cbn [fst snd] in HL, HS.
  destruct (bIsInitialized s) eqn:Hi; cbn [negb orb] in HL; [|discriminate HL].
  destruct (size (DirtyCells s) =? 0)%nat eqn:Hd; [discriminate HL|].
  injection HL as ->. cbn [SaveDir CellsToFlush].
  split; [reflexivity|]. split.
  { intros He. apply DirtyCells_Num_zero in He. congruence. }
  split; [reflexivity|]. split; [apply NoDup_elements|].
  split; [intros c; apply elem_of_elements|].
  split; [apply FlushTask_run_captured|].
  rewrite HS. reflexivity.
Qed.

(** ** Stores reached by calls never flush an empty file *)

Lemma Find_or_empty_nonempty {A : Type} (m : gmap FWorldCellKey (list A)) (c : FWorldCellKey) :
  Find_or_empty m c <> [] -> is_Some (m !! c).
Proof.
  unfold Find_or_empty. destruct (m !! c) as [l|]; [eauto | congruence].
Qed.

Lemma FindOrAdd_Add_no_empty {A : Type} (m : gmap FWorldCellKey (list A))
    (k : FWorldCellKey) (d : A) :
  (forall c, m !! c <> Some []) -> forall c, FindOrAdd_Add m k d !! c <> Some [].
Proof.
  intros Hm c. unfold FindOrAdd_Add. destruct (decide (k = c)) as [->|Hne].
  - rewrite lookup_insert_eq. intros H. injection H as H.
    apply app_eq_nil in H as [_ H]. discriminate H.
  - rewrite lookup_insert_ne by assumption. apply Hm.
Qed.

Lemma delete_no_empty {A : Type} (m : gmap FWorldCellKey (list A)) (k : FWorldCellKey) :
  (forall c, m !! c <> Some []) -> forall c, delete k m !! c <> Some [].
Proof.
  intros Hm c. destruct (decide (k = c)) as [->|Hne].
  - rewrite lookup_delete_eq. discriminate.
  - rewrite lookup_delete_ne by assumption. apply Hm.
Qed.

Lemma app_nonempty_l {A : Type} (l1 l2 : list A) : l1 <> [] -> l1 ++ l2 <> [].
Proof. intros H He. apply app_eq_nil in He as [He _]. contradiction. Qed.

Lemma HasDeltas_Append_mono (s : UFileDeltaStore) (d : FDelta) (c : FWorldCellKey) :
  HasDeltas s c -> HasDeltas (Append s d) c.
Proof.
  unfold HasDeltas.
  rewrite GetSurfaceDeltas_Append, GetFractureDeltas_Append, GetTransformDeltas_Append,
    GetSpawnDeltas_Append, GetRemoveDeltas_Append, GetAssemblyDeltas_Append.
  intros [H|[H|[H|[H|[H|H]]]]];
    [left | right; left | do 2 right; left | do 3 right; left
     | do 4 right; left | do 5 right]; apply app_nonempty_l, H.
Qed.

Lemma HasDeltas_Append_own (s : UFileDeltaStore) (d : FDelta) :
  HasDeltas (Append s d) (DeltaCellKey d).
Proof.
  pose proof (Append_own_cell s d) as H. unfold HasDeltas.
  destruct d; cbn [Append DeltaCellKey];
    [left | right; left | do 2 right; left | do 3 right; left
     | do 4 right; left | do 5 right];
    rewrite H; intros He; apply app_eq_nil in He as [_ He]; discriminate He.
Qed.

Lemma StoreWellFormed_new (ProjectSavedDir : FString) :
  StoreWellFormed (UFileDeltaStore_new ProjectSavedDir).
Proof.
  unfold StoreWellFormed, UFileDeltaStore_new.
  cbn [SurfaceDeltas FractureDeltas TransformDeltas SpawnDeltas RemoveDeltas
       AssemblyDeltas DirtyCells].
  repeat split; try (intros c; rewrite lookup_empty; discriminate).
  intros c Hc. apply not_elem_of_empty in Hc. contradiction.
Qed.

Lemma StoreWellFormed_Append (s : UFileDeltaStore) (d : FDelta) :
  StoreWellFormed s -> StoreWellFormed (Append s d).
Proof.
  intros (H1 & H2 & H3 & H4 & H5 & H6 & HD).
  assert (forall c, c ∈ DirtyCells (Append s d) -> HasDeltas (Append s d) c) as HD'.
  { intros c. rewrite DirtyCells_Append, elem_of_union, elem_of_singleton.
    intros [->|Hc]; [apply HasDeltas_Append_own | apply HasDeltas_Append_mono, HD, Hc]. }
  unfold StoreWellFormed.
  destruct d; cbn [Append]; (split; [|split; [|split; [|split; [|split; [|split]]]]]);
    try exact HD'; cbn; try assumption; apply FindOrAdd_Add_no_empty; assumption.
Qed.

Lemma StoreWellFormed_ClearCellDeltas (s : UFileDeltaStore) (k : FWorldCellKey) :
  StoreWellFormed s -> StoreWellFormed (ClearCellDeltas s k).
Proof.
  intros (H1 & H2 & H3 & H4 & H5 & H6 & HD). unfold StoreWellFormed.
  repeat split; try (cbn; apply delete_no_empty; assumption).
  intros c Hc. unfold ClearCellDeltas in Hc. cbn [DirtyCells] in Hc.
  apply elem_of_difference in Hc as [Hc Hk]. rewrite elem_of_singleton in Hk.
  specialize (HD c Hc). unfold HasDeltas in *.
  destruct (Get_ClearCellDeltas s k c) as (G1 & G2 & G3 & G4 & G5 & G6).
  rewrite decide_False in G1 by congruence. rewrite decide_False in G2 by congruence.
  rewrite decide_False in G3 by congruence. rewrite decide_False in G4 by congruence.
  rewrite decide_False in G5 by congruence. rewrite decide_False in G6 by congruence.
  rewrite G1, G2, G3, G4, G5, G6. exact HD.
Qed.

Lemma StoreWellFormed_Flush (s : UFileDeltaStore) :
  StoreWellFormed s -> StoreWellFormed (fst (Flush s)).
Proof.
  intros (H1 & H2 & H3 & H4 & H5 & H6 & HD). rewrite Flush_state.
  unfold StoreWellFormed. cbn. repeat split; try assumption.
  intros c Hc. destruct (bIsInitialized s).
  - apply not_elem_of_empty in Hc. contradiction.
  - apply HD, Hc.
Qed.

Lemma StoreWellFormed_Initialize ex cr (s : UFileDeltaStore) (W : FString) :
  StoreWellFormed s -> StoreWellFormed (snd (Initialize ex cr s W)).
Proof.
  intros H. unfold Initialize.
  destruct (negb (ex (PathJoin (BaseSaveDirectory s) W))
            && negb (cr (PathJoin (BaseSaveDirectory s) W))); exact H.
Qed.

Lemma StoreWellFormed_DoCalls (s : UFileDeltaStore) (calls : list StoreCall) :
  StoreWellFormed s -> StoreWellFormed (DoCalls s calls).
Proof.
  revert s. induction calls as [|call calls IH]; intros s H; [exact H|].
  apply IH. destruct call; cbn [DoCall].
  - apply StoreWellFormed_Append, H.
  - apply StoreWellFormed_ClearCellDeltas, H.
  - apply StoreWellFormed_Flush, H.
  - apply StoreWellFormed_Initialize, H.
Qed.

Lemma FlushedFile_nonempty (dir : FString) (s : UFileDeltaStore) (c : FWorldCellKey) :
  StoreWellFormed s -> c ∈ DirtyCells s ->
  CellDataHasArray (snd (FlushedFile dir s c))
  /\ CellDataNoEmptyArray (snd (FlushedFile dir s c)).
Proof.
  intros (H1 & H2 & H3 & H4 & H5 & H6 & HD) Hc. split.
  - unfold CellDataHasArray, FlushedFile. cbn.
    destruct (HD c Hc) as [H|[H|[H|[H|[H|H]]]]];
      [left | right; left | do 2 right; left | do 3 right; left
       | do 4 right; left | do 5 right]; apply Find_or_empty_nonempty, H.
  - unfold CellDataNoEmptyArray, FlushedFile. cbn. repeat split; auto.
Qed.

(** X3.  Start from a newly constructed store and make any calls of
    [Append*Delta], [ClearCellDeltas], [Flush] and [Initialize].  If a
    [Flush] then launches a task, every file the task writes has an array for
    at least one delta type and none of its arrays is empty: a cell is dirty
    only while it has deltas. *)
Theorem flush_never_writes_an_empty_file :
  forall (ProjectSavedDir : FString) (calls : list StoreCall),
    match snd (Flush (DoCalls (UFileDeltaStore_new ProjectSavedDir) calls)) with
    | Some t =>
        Forall (fun file => CellDataHasArray (snd file) /\ CellDataNoEmptyArray (snd file))
               (FlushTask_run t)
    | None => True
    end.
Proof.
  intros dir calls.
  pose proof (StoreWellFormed_DoCalls _ calls (StoreWellFormed_new dir)) as HW.
  set (s := DoCalls (UFileDeltaStore_new dir) calls) in *.
  rewrite Flush_launches.
  destruct (negb (bIsInitialized s) || (size (DirtyCells s) =? 0)%nat); [exact I|].
  rewrite FlushTask_run_captured. apply Forall_map, Forall_forall.
  intros c Hc. apply elem_of_elements in Hc. apply FlushedFile_nonempty; assumption.
Qed.

(** X4.  Flushing is not incremental.  After a [Flush] of an initialised
    store, one further [Append*Delta(d)] makes the next [Flush] launch a task
    that writes a single file, the one of [d]'s cell, and that file holds the
    complete arrays of the cell (everything appended before as well as [d]),
    not only the delta appended since the previous flush. *)
Theorem second_flush_rewrites_the_whole_cell :
  forall (s : UFileDeltaStore) (d : FDelta),
    bIsInitialized s = true ->
    match snd (Flush (Append (fst (Flush s)) d)) with
    | Some t =>
        CellsToFlush t = [DeltaCellKey d]
        /\ FlushTask_run t
           = [FlushedFile (PathJoin (BaseSaveDirectory s) (CurrentWorldName s))
                          (Append s d) (DeltaCellKey d)]
    | None => False
    end.
Proof.
  intros s d Hi. rewrite Flush_launches.
  assert (DirtyCells (Append (fst (Flush s)) d) = {[ DeltaCellKey d ]}) as HD.
  { rewrite DirtyCells_Append, Flush_state. cbn [DirtyCells]. rewrite Hi.
    apply (right_id_L ∅ (∪)). }
  assert (bIsInitialized (Append (fst (Flush s)) d) = true) as Hi'.
  { rewrite Flush_state. destruct d; cbn; exact Hi. }
  rewrite Hi', HD, size_singleton. cbn [negb orb Nat.eqb].
  rewrite elements_singleton. split; [reflexivity|].
  rewrite FlushTask_run_captured. cbn [map].
  rewrite Flush_state. unfold FlushedFile. destruct d; cbn; reflexivity.
Qed.

(** The sample store is initialised with two dirty cells: its flush launches
    a task, and the task leaves no cell dirty. *)
Lemma Flush_task_writes_the_dirty_cells_witness :
  Flush sampleStore = (fst (Flush sampleStore), Some sampleTask)
  /\ SaveDir sampleTask = "Saved/GameSaveData/MyWorld"
  /\ DirtyCells (fst (Flush sampleStore)) = ∅.
Proof.
  assert (Flush sampleStore = (fst (Flush sampleStore), Some sampleTask)) as H
    by (vm_compute; reflexivity).
  split; [exact H|].
  destruct (Flush_task_writes_the_dirty_cells _ _ _ H) as (_ & _ & Hd & _ & _ & _ & He).
  split; [rewrite Hd; reflexivity | exact He].
Defined.

(** After a flush of the sample store, one more snow delta makes the next
    flush write the file of [cellA] again. *)
Lemma second_flush_rewrites_the_whole_cell_witness :
  bIsInitialized sampleStore = true
  /\ match snd (Flush (Append (fst (Flush sampleStore)) (SurfaceTile snow))) with
     | Some t =>
         CellsToFlush t = [DeltaCellKey (SurfaceTile snow)]
         /\ FlushTask_run t
            = [FlushedFile (PathJoin (BaseSaveDirectory sampleStore)
                                     (CurrentWorldName sampleStore))
                           (Append sampleStore (SurfaceTile snow))
                           (DeltaCellKey (SurfaceTile snow))]
     | None => False
     end.
Proof.
  split; [reflexivity|].
  apply (second_flush_rewrites_the_whole_cell sampleStore (SurfaceTile snow)).
  reflexivity.
Defined.

(** ** Cell directories: [FWorldCellKey::ToString] names every cell apart *)

Lemma append_cons (a : Ascii.ascii) (s t : string) :
  String a s +:+ t = String a (s +:+ t).
Proof. reflexivity. Qed.

Lemma append_nil_l (t : string) : EmptyString +:+ t = t.
Proof. reflexivity. Qed.

Lemma append_assoc (s t u : string) : (s +:+ t) +:+ u = s +:+ (t +:+ u).
Proof.
  induction s as [|a s IH]; [reflexivity|]. rewrite !append_cons, IH. reflexivity.
Qed.


Lemma pretty_N_char_number (x : N) : is_number_char (pretty_N_char x) = true.
Proof. unfold pretty_N_char. repeat case_match; reflexivity. Qed.

Lemma number_string_pretty_N_go (x : N) (s : string) :
  number_string s = true -> number_string (pretty_N_go x s) = true.
Proof.
  revert s. induction (N.lt_wf_0 x) as [x _ IH]; intros s Hs.
  assert (x = 0 \/ 0 < x)%N as [->|Hx] by lia.
  - rewrite pretty_N_go_0. exact Hs.
  - rewrite pretty_N_go_step by exact Hx. apply IH.
    + apply N.div_lt; [exact Hx | reflexivity].
    + cbn [number_string]. rewrite pretty_N_char_number, Hs. reflexivity.
Qed.

Lemma number_string_pretty_N (x : N) : number_string (pretty x) = true.
Proof.
  unfold pretty, pretty_N. case_decide; [reflexivity|].
  apply number_string_pretty_N_go. reflexivity.
Qed.

(** What [%d] prints has digits and the minus sign only. *)
Lemma number_string_pretty_Z (z : Z) : number_string (pretty z) = true.
Proof.
  destruct z as [|p|p]; [reflexivity| |].
  - apply (number_string_pretty_N (Npos p)).
  - change (pretty (Zneg p)) with (String (Ascii.ascii_of_nat 45) (pretty (Npos p))).
    cbn [number_string]. rewrite (number_string_pretty_N (Npos p)). reflexivity.
Qed.

(** Two numbers followed by the same separator: the separator is found at
    the same place in both strings. *)
Lemma split_at_separator (c : Ascii.ascii) (s1 s2 t1 t2 : string) :
  is_number_char c = false ->
  number_string s1 = true -> number_string s2 = true ->
  s1 +:+ String c t1 = s2 +:+ String c t2 -> s1 = s2 /\ t1 = t2.
Proof.
  intros Hc. revert s2. induction s1 as [|a s1 IH]; intros [|b s2] H1 H2 H.
  - rewrite !append_nil_l in H. injection H as ->. split; reflexivity.
  - rewrite append_nil_l, append_cons in H. injection H as <- _.
    cbn [number_string] in H2. rewrite Hc in H2. discriminate H2.
  - rewrite append_nil_l, append_cons in H. injection H as -> _.
    cbn [number_string] in H1. rewrite Hc in H1. discriminate H1.
  - rewrite !append_cons in H. injection H as <- H.
    cbn [number_string] in H1, H2.
    apply andb_true_iff in H1 as [_ H1]. apply andb_true_iff in H2 as [_ H2].
    destruct (IH s2 H1 H2 H) as [-> ->]. split; reflexivity.
Qed.

(** The string of a key, followed by anything, determines the key. *)
Lemma ToString_app_inj (k1 k2 : FWorldCellKey) (r1 r2 : string) :
  FWorldCellKey_ToString k1 +:+ r1 = FWorldCellKey_ToString k2 +:+ r2 ->
  k1 = k2 /\ r1 = r2.
Proof.
  unfold FWorldCellKey_ToString. intros H.
  rewrite !append_assoc in H. rewrite !append_cons, !append_nil_l in H.
  injection H as H.
  apply split_at_separator in H as [HX H]; [|reflexivity|apply number_string_pretty_Z..].
  apply split_at_separator in H as [HY H]; [|reflexivity|apply number_string_pretty_Z..].
  injection H as H.
  apply split_at_separator in H as [HL H]; [|reflexivity|apply number_string_pretty_Z..].
  apply (inj pretty) in HX, HY, HL.
  destruct k1, k2; cbn in *; subst. split; reflexivity.
Qed.

Lemma append_nil_r (s : string) : s +:+ EmptyString = s.
Proof. induction s as [|a s IH]; [reflexivity|]. rewrite append_cons, IH. reflexivity. Qed.

(** X5.  [FWorldCellKey::ToString] gives different cells different strings:
    the printed form [(X,Y,LODn)] can be read back, whatever the sign and the
    number of digits of the three coordinates. *)
Theorem FWorldCellKey_ToString_distinct :
  forall k1 k2 : FWorldCellKey,
    k1 <> k2 -> FWorldCellKey_ToString k1 <> FWorldCellKey_ToString k2.
Proof.
  intros k1 k2 Hne He. apply Hne.
  apply (ToString_app_inj k1 k2 EmptyString EmptyString).
  rewrite !append_nil_r. exact He.
Qed.

Lemma FWorldCellKey_ToString_distinct_witness :
  cellA <> cellB /\ FWorldCellKey_ToString cellA <> FWorldCellKey_ToString cellB.
Proof.
  assert (cellA <> cellB) as H by discriminate.
  split; [exact H | apply (FWorldCellKey_ToString_distinct cellA cellB H)].
Defined.






(** ** Initialize *)

(** X7.  [Initialize(WorldName)] fails exactly when the world directory
    neither exists nor can be created.  In both outcomes it keeps the six
    maps and the dirty set and sets [CurrentWorldName]; it never resets
    [bIsInitialized].  So a store that was initialised before stays
    initialised after a failed call, and its next [Flush] writes the dirty
    cells under the directory of the new world name. *)
Theorem Initialize_keeps_deltas_and_redirects_flush :
  forall (DirectoryExists CreateDirectoryTree : FString -> bool)
         (s : UFileDeltaStore) (WorldName : FString),
    let WorldDir := PathJoin (BaseSaveDirectory s) WorldName in
    let r := Initialize DirectoryExists CreateDirectoryTree s WorldName in
    fst r = DirectoryExists WorldDir || CreateDirectoryTree WorldDir
    /\ bIsInitialized (snd r) = fst r || bIsInitialized s
    /\ CurrentWorldName (snd r) = WorldName
    /\ BaseSaveDirectory (snd r) = BaseSaveDirectory s
    /\ SurfaceDeltas (snd r) = SurfaceDeltas s
    /\ FractureDeltas (snd r) = FractureDeltas s
    /\ TransformDeltas (snd r) = TransformDeltas s
    /\ SpawnDeltas (snd r) = SpawnDeltas s
    /\ RemoveDeltas (snd r) = RemoveDeltas s
    /\ AssemblyDeltas (snd r) = AssemblyDeltas s
    /\ DirtyCells (snd r) = DirtyCells s
    /\ match snd (Flush (snd r)) with
       | Some t =>
           SaveDir t = WorldDir
           /\ FlushTask_run t = map (FlushedFile WorldDir s) (elements (DirtyCells s))
       | None => fst r || bIsInitialized s = false \/ DirtyCells s = ∅
       end.
Proof.
  intros ex cr s W WorldDir r. subst r WorldDir.
  rewrite Flush_launches. unfold Initialize.
  destruct (ex (PathJoin (BaseSaveDirectory s) W));
    destruct (cr (PathJoin (BaseSaveDirectory s) W));
    cbn [negb andb orb fst snd bIsInitialized CurrentWorldName BaseSaveDirectory
         SurfaceDeltas FractureDeltas TransformDeltas SpawnDeltas RemoveDeltas
         AssemblyDeltas DirtyCells];
    repeat (split; [reflexivity|]);
    try (destruct (bIsInitialized s); cbn [negb orb]; [|left; reflexivity]);
    (destruct (size (DirtyCells s) =? 0)%nat eqn:Hd;
     [ right; apply Nat.eqb_eq, size_empty_iff in Hd; apply leibniz_equiv, Hd
     | split; [reflexivity | rewrite FlushTask_run_captured; reflexivity] ]).
Qed.

(* ===================================================================== *)
(** * Further properties of the spec registries *)
(* ===================================================================== *)

(** ** Sequences of runtime registrations *)

Lemma RegisterRuntimeSurfaceSpecs_snoc (s : USurfaceQuerySubsystem) regs reg :
  RegisterRuntimeSurfaceSpecs s (regs ++ [reg])
  = RegisterRuntimeSurfaceSpec (RegisterRuntimeSurfaceSpecs s regs) (fst reg) (snd reg).
Proof. unfold RegisterRuntimeSurfaceSpecs. rewrite fold_left_app. reflexivity. Qed.

Lemma RegisterRuntimeSurfaceSpecs_assets (s : USurfaceQuerySubsystem) regs :
  SurfaceSpecMap (RegisterRuntimeSurfaceSpecs s regs) = SurfaceSpecMap s
  /\ DefaultSurfaceSpec (RegisterRuntimeSurfaceSpecs s regs) = DefaultSurfaceSpec s.
Proof.
  induction regs as [|reg regs IH] using rev_ind; [split; reflexivity|].
  rewrite RegisterRuntimeSurfaceSpecs_snoc. exact IH.
Qed.

(** X8.  After any sequence of [RegisterRuntimeSurfaceSpec] calls,
    [ResolveSurfaceSpec] returns [true] with the spec of the LAST call made
    for the identifier (a later registration replaces an earlier one); an
    identifier that no call named is resolved as before the calls.  The
    calls leave the DataAsset registry and the default asset alone. *)
Theorem ResolveSurfaceSpec_last_registration_wins :
  forall (s : USurfaceQuerySubsystem) (regs : list (FSurfaceSpecId * FRuntimeSurfaceSpec.t))
         (Id : FSurfaceSpecId) (OutSpec : FRuntimeSurfaceSpec.t),
    ResolveSurfaceSpec (RegisterRuntimeSurfaceSpecs s regs) Id OutSpec
    = match LastRegisteredSurface Id regs with
      | Some Spec => (true, Spec)
      | None => ResolveSurfaceSpec s Id OutSpec
      end
    /\ SurfaceSpecMap (RegisterRuntimeSurfaceSpecs s regs) = SurfaceSpecMap s
    /\ DefaultSurfaceSpec (RegisterRuntimeSurfaceSpecs s regs) = DefaultSurfaceSpec s.
Proof.
  intros s regs Id Out. split; [|apply RegisterRuntimeSurfaceSpecs_assets].
  induction regs as [|[Id' Spec] regs IH] using rev_ind; [reflexivity|].
  rewrite RegisterRuntimeSurfaceSpecs_snoc. unfold LastRegisteredSurface in *.
  rewrite rev_app_distr. cbn [rev app List.find fst snd].
  unfold ResolveSurfaceSpec, RegisterRuntimeSurfaceSpec in *.
  cbn [RuntimeSurfaceSpecs] in *.
  destruct (String.eqb (SurfaceSpecId_Id Id') (SurfaceSpecId_Id Id)) eqn:He.
  - apply String.eqb_eq in He. rewrite He, lookup_insert_eq. reflexivity.
  - apply String.eqb_neq in He. rewrite lookup_insert_ne by exact He. exact IH.
Qed.

Lemma RegisterRuntimeMediumSpecs_snoc (s : UEnvironmentSubsystem) regs reg :
  RegisterRuntimeMediumSpecs s (regs ++ [reg])
  = RegisterRuntimeMediumSpec (RegisterRuntimeMediumSpecs s regs) (fst reg) (snd reg).
Proof. unfold RegisterRuntimeMediumSpecs. rewrite fold_left_app. reflexivity. Qed.

Lemma RegisterRuntimeMediumSpecs_assets (s : UEnvironmentSubsystem) regs :
  MediumSpecMap (RegisterRuntimeMediumSpecs s regs) = MediumSpecMap s
  /\ DefaultMediumSpec (RegisterRuntimeMediumSpecs s regs) = DefaultMediumSpec s.
Proof.
  induction regs as [|reg regs IH] using rev_ind; [split; reflexivity|].
  rewrite RegisterRuntimeMediumSpecs_snoc. exact IH.
Qed.

(** X9.  The same for media: after any sequence of
    [RegisterRuntimeMediumSpec] calls, [ResolveMediumSpec] returns [true]
    with the spec of the last call made for the identifier, and resolves
    every other identifier as before; [GetMediumSpec], which reads the
    DataAsset registry, answers as before the calls. *)
Theorem ResolveMediumSpec_last_registration_wins :
  forall (s : UEnvironmentSubsystem) (regs : list (FMediumSpecId * FRuntimeMediumSpec.t))
         (Id : FMediumSpecId) (OutSpec : FRuntimeMediumSpec.t),
    ResolveMediumSpec (RegisterRuntimeMediumSpecs s regs) Id OutSpec
    = match LastRegisteredMedium Id regs with
      | Some Spec => (true, Spec)
      | None => ResolveMediumSpec s Id OutSpec
      end
    /\ GetMediumSpec (RegisterRuntimeMediumSpecs s regs) Id = GetMediumSpec s Id.
Proof.
  intros s regs Id Out. split.
  - induction regs as [|[Id' Spec] regs IH] using rev_ind; [reflexivity|].
    rewrite RegisterRuntimeMediumSpecs_snoc. unfold LastRegisteredMedium in *.
    rewrite rev_app_distr. cbn [rev app List.find fst snd].
    unfold ResolveMediumSpec, RegisterRuntimeMediumSpec in *.
    cbn [RuntimeMediumSpecs] in *.
    destruct (String.eqb (MediumSpecId_Id Id') (MediumSpecId_Id Id)) eqn:He.
    + apply String.eqb_eq in He. rewrite He, lookup_insert_eq. reflexivity.
    + apply String.eqb_neq in He. rewrite lookup_insert_ne by exact He. exact IH.
  - destruct (RegisterRuntimeMediumSpecs_assets s regs) as [Hm Hd].
    unfold GetMediumSpec. rewrite Hm, Hd. reflexivity.
Qed.

(** ** Listing the runtime registries *)

Lemma GetAllRuntimeSpecIds_fmap (s : USurfaceQuerySubsystem) :
  GetAllRuntimeSpecIds s = mkSurfaceSpecId <$> (map_to_list (RuntimeSurfaceSpecs s)).*1.
Proof.
  unfold GetAllRuntimeSpecIds. rewrite <- list_fmap_compose. reflexivity.
Qed.

(** X10.  [GetAllRuntimeSpecIds] lists every identifier of the runtime
    registry once: the list has no duplicates, has as many entries as the
    registry, and holds exactly the identifiers for which [HasRuntimeSpec]
    answers [true] (those [ResolveSurfaceSpec] resolves with [true]).  After
    [ClearRuntimeSpecs] the list is empty. *)
Theorem GetAllRuntimeSpecIds_lists_the_registry :
  forall (s : USurfaceQuerySubsystem),
    NoDup (GetAllRuntimeSpecIds s)
    /\ length (GetAllRuntimeSpecIds s) = size (RuntimeSurfaceSpecs s)
    /\ (forall Id, Id ∈ GetAllRuntimeSpecIds s <-> HasRuntimeSpec s Id = true)
    /\ (forall Id OutSpec,
          Id ∈ GetAllRuntimeSpecIds s <-> fst (ResolveSurfaceSpec s Id OutSpec) = true)
    /\ GetAllRuntimeSpecIds (ClearRuntimeSpecs s) = [].
Proof.
  intros s.
  assert (forall Id, Id ∈ GetAllRuntimeSpecIds s
                     <-> is_Some (RuntimeSurfaceSpecs s !! SurfaceSpecId_Id Id)) as Hin.
  { intros [Name]. rewrite GetAllRuntimeSpecIds_fmap. cbn [SurfaceSpecId_Id]. split.
    - intros H. apply list_elem_of_fmap in H as (Name' & HN & H). injection HN as ->.
      apply list_elem_of_fmap in H as ([Name'' Spec] & -> & H).
      apply elem_of_map_to_list in H. cbn [fst]. eauto.
    - intros [Spec H]. apply list_elem_of_fmap. exists Name. split; [reflexivity|].
      apply list_elem_of_fmap. exists (Name, Spec). split; [reflexivity|].
      apply elem_of_map_to_list, H. }
  split; [|split; [|split; [|split]]].
  - rewrite GetAllRuntimeSpecIds_fmap. apply NoDup_fmap_2.
    + intros x y H. injection H as H. exact H.
    + apply NoDup_fst_map_to_list.
  - unfold GetAllRuntimeSpecIds. rewrite length_map. apply length_map_to_list.
  - intros Id. rewrite Hin. unfold HasRuntimeSpec. rewrite bool_decide_eq_true. reflexivity.
  - intros Id Out. rewrite Hin. unfold ResolveSurfaceSpec.
    destruct (RuntimeSurfaceSpecs s !! SurfaceSpecId_Id Id); cbn [fst]; split;
      intros H; try reflexivity; eauto; try discriminate H.
    destruct H as [x H]. discriminate H.
  - unfold GetAllRuntimeSpecIds, ClearRuntimeSpecs. cbn [RuntimeSurfaceSpecs].
    rewrite map_to_list_empty. reflexivity.
Qed.

Lemma GetAllRuntimeMediumSpecIds_fmap (s : UEnvironmentSubsystem) :
  GetAllRuntimeMediumSpecIds s = mkMediumSpecId <$> (map_to_list (RuntimeMediumSpecs s)).*1.
Proof.
  unfold GetAllRuntimeMediumSpecIds. rewrite <- list_fmap_compose. reflexivity.
Qed.

(** X11.  [GetAllRuntimeMediumSpecIds] lists every identifier of the
    runtime medium registry once, and exactly the identifiers for which
    [HasRuntimeMediumSpec] answers [true]; after [ClearRuntimeMediumSpecs]
    the list is empty and every identifier resolves to the fallback, while
    the DataAsset registry is kept. *)
Theorem GetAllRuntimeMediumSpecIds_lists_the_registry :
  forall (s : UEnvironmentSubsystem),
    NoDup (GetAllRuntimeMediumSpecIds s)
    /\ length (GetAllRuntimeMediumSpecIds s) = size (RuntimeMediumSpecs s)
    /\ (forall Id, Id ∈ GetAllRuntimeMediumSpecIds s <-> HasRuntimeMediumSpec s Id = true)
    /\ GetAllRuntimeMediumSpecIds (ClearRuntimeMediumSpecs s) = []
    /\ (forall Id OutSpec,
          ResolveMediumSpec (ClearRuntimeMediumSpecs s) Id OutSpec = (false, FallbackMediumSpec)
          /\ GetMediumSpec (ClearRuntimeMediumSpecs s) Id = GetMediumSpec s Id).
Proof.
  intros s.
  assert (forall Id, Id ∈ GetAllRuntimeMediumSpecIds s
                     <-> is_Some (RuntimeMediumSpecs s !! MediumSpecId_Id Id)) as Hin.
  { intros [Name]. rewrite GetAllRuntimeMediumSpecIds_fmap. cbn [MediumSpecId_Id]. split.
    - intros H. apply list_elem_of_fmap in H as (Name' & HN & H). injection HN as ->.
      apply list_elem_of_fmap in H as ([Name'' Spec] & -> & H).
      apply elem_of_map_to_list in H. cbn [fst]. eauto.
    - intros [Spec H]. apply list_elem_of_fmap. exists Name. split; [reflexivity|].
      apply list_elem_of_fmap. exists (Name, Spec). split; [reflexivity|].
      apply elem_of_map_to_list, H. }
  split; [|split; [|split; [|split]]].
  - rewrite GetAllRuntimeMediumSpecIds_fmap. apply NoDup_fmap_2.
    + intros x y H. injection H as H. exact H.
    + apply NoDup_fst_map_to_list.
  - unfold GetAllRuntimeMediumSpecIds. rewrite length_map. apply length_map_to_list.
  - intros Id. rewrite Hin. unfold HasRuntimeMediumSpec. rewrite bool_decide_eq_true.
    reflexivity.
  - unfold GetAllRuntimeMediumSpecIds, ClearRuntimeMediumSpecs. cbn [RuntimeMediumSpecs].
    rewrite map_to_list_empty. reflexivity.
  - intros Id Out. split.
    + unfold ResolveMediumSpec, ClearRuntimeMediumSpecs. cbn [RuntimeMediumSpecs].
      rewrite lookup_empty. reflexivity.
    + reflexivity.
Qed.

(** ** Sequences of DataAsset registrations *)

Lemma RegisterSurfaceSpecs_snoc (s : USurfaceQuerySubsystem) regs reg :
  RegisterSurfaceSpecs s (regs ++ [reg])
  = RegisterSurfaceSpec (RegisterSurfaceSpecs s regs) (fst reg) (snd reg).
Proof. unfold RegisterSurfaceSpecs. rewrite fold_left_app. reflexivity. Qed.

Lemma RegisterSurfaceSpecs_others (s : USurfaceQuerySubsystem) regs :
  DefaultSurfaceSpec (RegisterSurfaceSpecs s regs) = DefaultSurfaceSpec s
  /\ RuntimeSurfaceSpecs (RegisterSurfaceSpecs s regs) = RuntimeSurfaceSpecs s.
Proof.
  induction regs as [|[PhysMat Spec] regs IH] using rev_ind; [split; reflexivity|].
  rewrite RegisterSurfaceSpecs_snoc. unfold RegisterSurfaceSpec. cbn [fst snd].
  destruct (N.eqb PhysMat 0), Spec; exact IH.
Qed.

(** X12.  After any sequence of [RegisterSurfaceSpec] calls,
    [GetSurfaceSpecForMaterial] returns for a non-null material the asset of
    the last call that named the material with a non-null asset; a call with
    a null material or a null asset registers nothing.  A material no such
    call named, and the null material, get what they got before (the null
    material: the default asset).  The runtime registry is not touched, so
    [ResolveSurfaceSpec] does not see the registered assets. *)
Theorem GetSurfaceSpecForMaterial_last_registration_wins :
  forall (s : USurfaceQuerySubsystem) (regs : list (UPhysicalMaterialRef * ptr USurfaceSpec.t))
         (PhysMat : UPhysicalMaterialRef),
    GetSurfaceSpecForMaterial (RegisterSurfaceSpecs s regs) PhysMat
    = (if N.eqb PhysMat 0 then DefaultSurfaceSpec s
       else match LastBoundSurfaceAsset PhysMat regs with
            | Some Spec => Some Spec
            | None => GetSurfaceSpecForMaterial s PhysMat
            end)
    /\ (forall Id OutSpec,
          ResolveSurfaceSpec (RegisterSurfaceSpecs s regs) Id OutSpec
          = ResolveSurfaceSpec s Id OutSpec).
Proof.
  intros s regs PhysMat. destruct (RegisterSurfaceSpecs_others s regs) as [Hd Hr]. split.
  - unfold GetSurfaceSpecForMaterial at 1. rewrite Hd.
    destruct (N.eqb PhysMat 0) eqn:H0; [reflexivity|].
    induction regs as [|[PhysMat' Spec] regs IH] using rev_ind.
    + unfold GetSurfaceSpecForMaterial. rewrite H0. reflexivity.
    + destruct (RegisterSurfaceSpecs_others s regs) as [Hd' Hr'].
      specialize (IH Hd' Hr').
      rewrite RegisterSurfaceSpecs_snoc. unfold LastBoundSurfaceAsset in *.
      rewrite rev_app_distr. cbn [rev app List.find fst snd].
      unfold RegisterSurfaceSpec.
      destruct (N.eqb PhysMat' PhysMat) eqn:He.
      * apply N.eqb_eq in He. subst PhysMat'. rewrite H0.
        destruct Spec as [Spec|]; cbn [andb].
        -- cbn [SurfaceSpecMap]. rewrite lookup_insert_eq. reflexivity.
        -- exact IH.
      * cbn [andb]. apply N.eqb_neq in He.
        destruct (N.eqb PhysMat' 0), Spec; try exact IH.
        cbn [SurfaceSpecMap]. rewrite lookup_insert_ne by exact He. exact IH.
  - intros Id Out. unfold ResolveSurfaceSpec. rewrite Hr. reflexivity.
Qed.

Lemma RegisterMediumSpecs_snoc (s : UEnvironmentSubsystem) regs reg :
  RegisterMediumSpecs s (regs ++ [reg])
  = RegisterMediumSpec (RegisterMediumSpecs s regs) (fst reg) (snd reg).
Proof. unfold RegisterMediumSpecs. rewrite fold_left_app. reflexivity. Qed.

Lemma RegisterMediumSpecs_others (s : UEnvironmentSubsystem) regs :
  DefaultMediumSpec (RegisterMediumSpecs s regs) = DefaultMediumSpec s
  /\ RuntimeMediumSpecs (RegisterMediumSpecs s regs) = RuntimeMediumSpecs s.
Proof.
  induction regs as [|[SpecId Spec] regs IH] using rev_ind; [split; reflexivity|].
  rewrite RegisterMediumSpecs_snoc. unfold RegisterMediumSpec. cbn [fst snd].
  destruct (FMediumSpecId_IsValid SpecId), Spec; exact IH.
Qed.

(** X13.  After any sequence of [RegisterMediumSpec] calls, [GetMediumSpec]
    returns for a valid identifier the asset of the last call that named it
    with a non-null asset; a call with the identifier [None] or a null asset
    registers nothing.  An identifier no such call named gets what it got
    before, and the identifier [None] always gets the default asset.  The
    runtime registry is not touched. *)
Theorem GetMediumSpec_last_registration_wins :
  forall (s : UEnvironmentSubsystem) (regs : list (FMediumSpecId * ptr UMediumSpec.t))
         (SpecId : FMediumSpecId),
    GetMediumSpec (RegisterMediumSpecs s regs) SpecId
    = (if FMediumSpecId_IsValid SpecId
       then match LastBoundMediumAsset SpecId regs with
            | Some Spec => Some Spec
            | None => GetMediumSpec s SpecId
            end
       else DefaultMediumSpec s)
    /\ (forall Id OutSpec,
          ResolveMediumSpec (RegisterMediumSpecs s regs) Id OutSpec
          = ResolveMediumSpec s Id OutSpec).
Proof.
  intros s regs SpecId. destruct (RegisterMediumSpecs_others s regs) as [Hd Hr]. split.
  - unfold GetMediumSpec at 1. rewrite Hd.
    destruct (FMediumSpecId_IsValid SpecId) eqn:H0; cbn [negb]; [|reflexivity].
    induction regs as [|[SpecId' Spec] regs IH] using rev_ind.
    + unfold GetMediumSpec. rewrite H0. reflexivity.
    + destruct (RegisterMediumSpecs_others s regs) as [Hd' Hr'].
      specialize (IH Hd' Hr').
      rewrite RegisterMediumSpecs_snoc. unfold LastBoundMediumAsset in *.
      rewrite rev_app_distr. cbn [rev app List.find fst snd].
      unfold RegisterMediumSpec.
      destruct (String.eqb (MediumSpecId_Id SpecId') (MediumSpecId_Id SpecId)) eqn:He.
      * apply String.eqb_eq in He.
        assert (FMediumSpecId_IsValid SpecId' = true) as Hv.
        { unfold FMediumSpecId_IsValid in *. rewrite He. exact H0. }
        rewrite Hv. destruct Spec as [Spec|]; cbn [andb].
        -- cbn [MediumSpecMap]. rewrite He, lookup_insert_eq. reflexivity.
        -- exact IH.
      * cbn [andb]. apply String.eqb_neq in He.
        destruct (FMediumSpecId_IsValid SpecId'), Spec; try exact IH.
        cbn [MediumSpecMap]. rewrite lookup_insert_ne by exact He. exact IH.
  - intros Id Out. unfold ResolveMediumSpec. rewrite Hr. reflexivity.
Qed.

(* ===================================================================== *)
(** * Properties of the environment volumes *)
(* ===================================================================== *)

Lemma DoVolumeCalls_snoc (s : UEnvironmentSubsystemVolumes) calls call :
  DoVolumeCalls s (calls ++ [call]) = DoVolumeCall (DoVolumeCalls s calls) call.
Proof. unfold DoVolumeCalls. rewrite fold_left_app. reflexivity. Qed.

Lemma LastVolumeCall_snoc (v : UEnvironmentVolumeRef) calls call :
  LastVolumeCall v (calls ++ [call])
  = if match call with
       | Call_RegisterVolume w => N.eqb w v
       | Call_UnregisterVolume w => N.eqb w v
       end
    then Some call else LastVolumeCall v calls.
Proof.
  unfold LastVolumeCall. rewrite rev_app_distr. cbn [rev app List.find].
  destruct call; reflexivity.
Qed.

Lemma elem_of_UnregisterVolume (s : UEnvironmentSubsystemVolumes) (w v : UEnvironmentVolumeRef) :
  v ∈ RegisteredVolumes (UnregisterVolume s w) <-> v ∈ RegisteredVolumes s /\ v <> w.
Proof.
  unfold UnregisterVolume. cbn [RegisteredVolumes].
  rewrite !list_elem_of_In, filter_In, negb_true_iff, N.eqb_neq. reflexivity.
Qed.

(** X14.  Start with no registered volume and make any calls of
    [RegisterVolume] and [UnregisterVolume].  The list of registered volumes
    then has no duplicate and no null pointer, and a volume is in it exactly
    when it is not null and the last call that named it was a
    [RegisterVolume]: registering twice adds nothing, unregistering a volume
    that is not registered does nothing.  The spec registries are kept. *)
Theorem RegisteredVolumes_follow_the_last_call :
  forall (e : UEnvironmentSubsystem) (calls : list VolumeCall),
    let s := DoVolumeCalls (mkEnvironmentVolumes e []) calls in
    NoDup (RegisteredVolumes s)
    /\ (0%N ∉ RegisteredVolumes s)
    /\ (forall v, v ∈ RegisteredVolumes s
                  <-> v <> 0%N /\ LastVolumeCall v calls = Some (Call_RegisterVolume v))
    /\ EnvironmentSpecs s = e.
Proof.
  intros e calls. cbv zeta.
  induction calls as [|call calls IH] using rev_ind.
  - cbn. split; [constructor|]. split; [apply not_elem_of_nil|]. split; [|reflexivity].
    intros v. split; [intros H; apply not_elem_of_nil in H; contradiction|].
    intros [_ H]. discriminate H.
  - destruct IH as (Hnd & H0 & Hin & He). rewrite DoVolumeCalls_snoc.
    set (s := DoVolumeCalls (mkEnvironmentVolumes e []) calls) in *.
    destruct call as [w|w]; cbn [DoVolumeCall].
    + unfold RegisterVolume.
      destruct (N.eqb w 0) eqn:Hw0; cbn [negb andb].
      * apply N.eqb_eq in Hw0. subst w.
        split; [exact Hnd|]. split; [exact H0|]. split; [|exact He].
        intros v. rewrite LastVolumeCall_snoc.
        destruct (N.eqb 0 v) eqn:Hv.
        -- apply N.eqb_eq in Hv. subst v. split; [intros H; contradiction|].
           intros [H _]. contradiction.
        -- apply Hin.
      * apply N.eqb_neq in Hw0.
        destruct (bool_decide (w ∈ RegisteredVolumes s)) eqn:Hm; cbn [negb].
        -- apply bool_decide_eq_true in Hm.
           split; [exact Hnd|]. split; [exact H0|]. split; [|exact He].
           intros v. rewrite LastVolumeCall_snoc.
           destruct (N.eqb w v) eqn:Hv; [|apply Hin].
           apply N.eqb_eq in Hv. subst v. split; [|intros _; exact Hm].
           intros _. split; [exact Hw0 | reflexivity].
        -- apply bool_decide_eq_false in Hm. cbn [RegisteredVolumes EnvironmentSpecs].
           split.
           { apply NoDup_app. split; [exact Hnd|]. split; [|apply NoDup_singleton].
             intros x Hx Hx'. apply list_elem_of_singleton in Hx'. subst x. contradiction. }
           split.
           { rewrite elem_of_app, list_elem_of_singleton. intros [H|H]; [contradiction|].
             apply Hw0. symmetry. exact H. }
           split; [|exact He].
           intros v. rewrite LastVolumeCall_snoc, elem_of_app, list_elem_of_singleton.
           destruct (N.eqb w v) eqn:Hv.
           ++ apply N.eqb_eq in Hv. subst v. split; [|intros _; right; reflexivity].
              intros _. split; [exact Hw0 | reflexivity].
           ++ apply N.eqb_neq in Hv. rewrite <- Hin. split; [|intros H; left; exact H].
              intros [H|H]; [exact H|]. exfalso. apply Hv. symmetry. exact H.
    + split; [unfold UnregisterVolume; cbn [RegisteredVolumes];
              apply NoDup_ListNoDup, List.NoDup_filter, NoDup_ListNoDup, Hnd|]. split.
      { rewrite elem_of_UnregisterVolume. intros [H _]. contradiction. }
      split; [|exact He].
      intros v. rewrite LastVolumeCall_snoc, elem_of_UnregisterVolume.
      destruct (N.eqb w v) eqn:Hv.
      * apply N.eqb_eq in Hv. subst v. split; [intros [_ H]; contradiction|].
        intros [_ H]. discriminate H.
      * apply N.eqb_neq in Hv. rewrite Hin. split; [intros [H _]; exact H|].
        intros H. split; [exact H|]. intros ->. apply Hv. reflexivity.
Qed.

(** ** The volume found at a location *)







(* ===================================================================== *)
(** * Properties of the biome registry *)
(* ===================================================================== *)

Lemma DoBiomeCalls_snoc (s : UBiomeSubsystem) calls call :
  DoBiomeCalls s (calls ++ [call]) = DoBiomeCall (DoBiomeCalls s calls) call.
Proof. unfold DoBiomeCalls. rewrite fold_left_app. reflexivity. Qed.

(** Every entry of the registry is stored under the name of its own
    identifier, and that name is not [None]. *)
Lemma BiomeSpecs_keys (calls : list BiomeCall) (k : FName) (Spec : FBiomeSpec.t) :
  BiomeSpecs (DoBiomeCalls UBiomeSubsystem_new calls) !! k = Some Spec ->
  FBiomeSpec.BiomeId Spec = mkBiomeId k /\ FBiomeId_IsValid (mkBiomeId k) = true.
Proof.
  revert k Spec. induction calls as [|call calls IH] using rev_ind; intros k Spec.
  - cbn. rewrite lookup_empty. discriminate.
  - rewrite DoBiomeCalls_snoc. destruct call as [New|Id]; cbn [DoBiomeCall].
    + unfold RegisterBiomeSpec.
      destruct (FBiomeId_IsValid (FBiomeSpec.BiomeId New)) eqn:Hv; [|apply IH].
      cbn [BiomeSpecs].
      destruct (decide (BiomeId_Id (FBiomeSpec.BiomeId New) = k)) as [<-|Hne].
      * rewrite lookup_insert_eq. intros H. injection H as <-.
        destruct (FBiomeSpec.BiomeId New) as [n]. cbn [BiomeId_Id] in *.
        split; [reflexivity | exact Hv].
      * rewrite lookup_insert_ne by exact Hne. apply IH.
    + apply IH.
Qed.

(** X17.  Start from a new biome subsystem and make any calls of
    [RegisterBiomeSpec] and [SetDefaultBiome].  Then [GetAllBiomeIds], which
    reads the identifier stored IN each spec, lists every registered biome
    once; an identifier is listed exactly when [GetBiomeSpec] finds a spec
    for it; the spec found for an identifier carries that identifier; and
    the identifier [None] is never registered: [GetBiomeSpec] gives
    [nullptr] for it and the per-biome surface and medium identifiers are
    [None]. *)
Theorem GetAllBiomeIds_lists_the_registered_biomes :
  forall (calls : list BiomeCall),
    let s := DoBiomeCalls UBiomeSubsystem_new calls in
    NoDup (GetAllBiomeIds s)
    /\ length (GetAllBiomeIds s) = size (BiomeSpecs s)
    /\ (forall Id, Id ∈ GetAllBiomeIds s <-> is_Some (GetBiomeSpec s Id))
    /\ (forall Id Spec, GetBiomeSpec s Id = Some Spec -> FBiomeSpec.BiomeId Spec = Id)
    /\ (forall Id, FBiomeId_IsValid Id = false ->
                   (Id ∉ GetAllBiomeIds s)
                   /\ GetBiomeSpec s Id = None
                   /\ GetSurfaceSpecForBiome s Id = mkSurfaceSpecId NAME_None
                   /\ GetMediumSpecForBiome s Id = mkMediumSpecId NAME_None).
Proof.
  intros calls. cbv zeta.
  pose proof (BiomeSpecs_keys calls) as Hkeys.
  set (s := DoBiomeCalls UBiomeSubsystem_new calls) in *.
  assert (GetAllBiomeIds s = mkBiomeId <$> (map_to_list (BiomeSpecs s)).*1) as Hall.
  { unfold GetAllBiomeIds. rewrite <- list_fmap_compose. apply map_ext_in.
    intros [k Spec] Hin. apply list_elem_of_In, elem_of_map_to_list in Hin.
    cbn [snd fst compose]. apply (Hkeys k Spec Hin). }
  assert (forall Id, Id ∈ GetAllBiomeIds s <-> is_Some (BiomeSpecs s !! BiomeId_Id Id)) as Hin.
  { intros [Name]. rewrite Hall. cbn [BiomeId_Id]. split.
    - intros H. apply list_elem_of_fmap in H as (Name' & HN & H). injection HN as ->.
      apply list_elem_of_fmap in H as ([Name'' Spec] & -> & H).
      apply elem_of_map_to_list in H. cbn [fst]. eauto.
    - intros [Spec H]. apply list_elem_of_fmap. exists Name. split; [reflexivity|].
      apply list_elem_of_fmap. exists (Name, Spec). split; [reflexivity|].
      apply elem_of_map_to_list, H. }
  assert (forall Id, FBiomeId_IsValid Id = false -> BiomeSpecs s !! BiomeId_Id Id = None) as Hinv.
  { intros [Name] Hv. cbn [BiomeId_Id].
    destruct (BiomeSpecs s !! Name) as [Spec|] eqn:HS; [|reflexivity].
    destruct (Hkeys Name Spec HS) as [_ Hv']. congruence. }
  split; [|split; [|split; [|split]]].
  - rewrite Hall. apply NoDup_fmap_2.
    + intros x y H. injection H as H. exact H.
    + apply NoDup_fst_map_to_list.
  - unfold GetAllBiomeIds. rewrite length_map. apply length_map_to_list.
  - intros Id. rewrite Hin. unfold GetBiomeSpec.
    destruct (FBiomeId_IsValid Id) eqn:Hv; cbn [negb]; [reflexivity|].
    rewrite (Hinv Id Hv). reflexivity.
  - intros [Name] Spec. unfold GetBiomeSpec.
    destruct (FBiomeId_IsValid (mkBiomeId Name)); cbn [negb BiomeId_Id]; [|discriminate].
    intros H. apply (Hkeys Name Spec H).
  - intros Id Hv.
    assert (GetBiomeSpec s Id = None) as HN by (unfold GetBiomeSpec; rewrite Hv; reflexivity).
    split; [|split; [exact HN|]].
    + rewrite Hin, (Hinv Id Hv). intros [x H]. discriminate H.
    + unfold GetSurfaceSpecForBiome, GetMediumSpecForBiome. rewrite HN. split; reflexivity.
Qed.

(* ===================================================================== *)
(** * Further properties of the SpecPack loader *)
(* ===================================================================== *)

Section SpecPackValidationProperties.
Context {engine : SpecPackEngine} {files : SpecPackFileEngine engine}.



(** X18.  A file that [ValidateSpecPack] accepts is a file that
    [LoadSpecPack] loads: validation answers [true] only for a file that can
    be read and parsed, and then leaves [OutErrorMessage] as it was; the load
    of the same file succeeds and caches its manifest, which [GetManifest]
    then returns with the hash of the file content. *)
Theorem ValidateSpecPack_accepts_only_loadable_files :
  forall (l : USpecPackLoader) (FilePath OutErrorMessage : FString)
         (OutManifest : FSpecPackManifest),
    fst (ValidateSpecPack FilePath OutErrorMessage) = true ->
    snd (ValidateSpecPack FilePath OutErrorMessage) = OutErrorMessage
    /\ ~ CannotLoad FilePath
    /\ bSuccess (fst (LoadSpecPack l FilePath)) = true
    /\ GetManifest (snd (LoadSpecPack l FilePath)) FilePath OutManifest
       = (true, Manifest (fst (LoadSpecPack l FilePath)))
    /\ ContentHash (Manifest (fst (LoadSpecPack l FilePath))) = GetSpecPackHash FilePath.
Proof.
  intros l FilePath Err M0. unfold ValidateSpecPack, CannotLoad, LoadSpecPack, GetManifest.
  destruct (LoadFileToString FilePath) as [JsonString|]; [|discriminate].
  destruct (Deserialize JsonString) as [RootObject|]; [|discriminate].
  destruct (negb (HasField RootObject "pack_id")); [discriminate|].
  destruct (negb (HasField RootObject "version")); [discriminate|].
  destruct (HasField RootObject "surface_specs"
            && negb (bool_decide (is_Some (TryGetArrayField RootObject "surface_specs"))));
    [discriminate|].
  destruct (HasField RootObject "medium_specs"
            && negb (bool_decide (is_Some (TryGetArrayField RootObject "medium_specs"))));
    [discriminate|].
  intros _. cbn [fst snd bSuccess Manifest CachedManifests ContentHash].
  split; [reflexivity|]. split; [discriminate|]. split; [reflexivity|].
  rewrite lookup_insert_eq. split; reflexivity.
Qed.

(** X19.  [ValidateSpecPack] answers [false] for every file [LoadSpecPack]
    cannot load, and sets [OutErrorMessage] to a message that tells the two
    causes apart: the file path after ["Cannot read file: "] when the file
    cannot be read, ["Invalid JSON syntax"] when its content does not
    parse. *)
Theorem ValidateSpecPack_rejects_unloadable_files :
  forall (FilePath OutErrorMessage : FString),
    CannotLoad FilePath ->
    fst (ValidateSpecPack FilePath OutErrorMessage) = false
    /\ snd (ValidateSpecPack FilePath OutErrorMessage)
       = match LoadFileToString FilePath with
         | None => "Cannot read file: " +:+ FilePath
         | Some _ => "Invalid JSON syntax"
         end.
Proof.
  intros FilePath Err. unfold CannotLoad, ValidateSpecPack.
  destruct (LoadFileToString FilePath) as [JsonString|]; [|intros _; split; reflexivity].
  intros ->. split; reflexivity.
Qed.




End SpecPackValidationProperties.

(** The sample file [Core.json] has the two required fields and an array of
    surface specs: it is accepted, and loading it caches its manifest. *)
Lemma ValidateSpecPack_accepts_only_loadable_files_witness :
  fst (ValidateSpecPack (files := ToyFileEngine) "Core.json" "unset") = true
  /\ snd (ValidateSpecPack (files := ToyFileEngine) "Core.json" "unset") = "unset"
  /\ bSuccess (fst (LoadSpecPack (engine := ToyEngine) emptyLoader "Core.json")) = true.
Proof.
  assert (fst (ValidateSpecPack (files := ToyFileEngine) "Core.json" "unset") = true) as H
    by reflexivity.
  split; [exact H|].
  destruct (ValidateSpecPack_accepts_only_loadable_files
              (files := ToyFileEngine) emptyLoader "Core.json" "unset"
              FSpecPackManifest_default H) as (He & _ & Hs & _).
  split; [exact He | exact Hs].
Defined.

(** The sample file [Broken.json] can be read but does not parse. *)
Lemma ValidateSpecPack_rejects_unloadable_files_witness :
  CannotLoad (engine := ToyEngine) "Broken.json"
  /\ ValidateSpecPack (files := ToyFileEngine) "Broken.json" "unset"
     = (false, "Invalid JSON syntax").
Proof.
  assert (CannotLoad (engine := ToyEngine) "Broken.json") as H by reflexivity.
  split; [exact H|].
  destruct (ValidateSpecPack_rejects_unloadable_files
              (files := ToyFileEngine) "Broken.json" "unset" H) as (Hf & Hm).
  destruct (ValidateSpecPack (files := ToyFileEngine) "Broken.json" "unset") as [b m].
  cbn [fst snd] in Hf, Hm. rewrite Hf, Hm. reflexivity.
Defined.

(* ===================================================================== *)
(** * Defaults, repeated flushes and shutdown *)
(* ===================================================================== *)

(** X22.  Once a non-null default asset is set, the DataAsset lookups never
    return [nullptr], whatever is registered afterwards and whatever material
    or identifier is asked for: [GetSurfaceSpecForMaterial] and
    [GetMediumSpec] return a registered asset or the default. *)
Theorem DataAsset_lookups_never_null_with_default :
  forall (s : USurfaceQuerySubsystem) (e : UEnvironmentSubsystem)
         (SurfaceDefault : USurfaceSpec.t) (MediumDefault : UMediumSpec.t)
         (SurfaceRegs : list (UPhysicalMaterialRef * ptr USurfaceSpec.t))
         (MediumRegs : list (FMediumSpecId * ptr UMediumSpec.t))
         (PhysMat : UPhysicalMaterialRef) (SpecId : FMediumSpecId),
    GetSurfaceSpecForMaterial
      (RegisterSurfaceSpecs (SetDefaultSurfaceSpec s (Some SurfaceDefault)) SurfaceRegs) PhysMat
    <> nullptr
    /\ GetMediumSpec
         (RegisterMediumSpecs (SetDefaultMediumSpec e (Some MediumDefault)) MediumRegs) SpecId
       <> nullptr.
Proof.
  intros s e SD MD SR MR PhysMat SpecId. split.
  - destruct (RegisterSurfaceSpecs_others (SetDefaultSurfaceSpec s (Some SD)) SR) as [Hd _].
    unfold GetSurfaceSpecForMaterial. rewrite Hd. cbn [SetDefaultSurfaceSpec DefaultSurfaceSpec].
    destruct (N.eqb PhysMat 0); [discriminate|].
    destruct (SurfaceSpecMap _ !! PhysMat) as [[F|]|]; discriminate.
  - destruct (RegisterMediumSpecs_others (SetDefaultMediumSpec e (Some MD)) MR) as [Hd _].
    unfold GetMediumSpec. rewrite Hd. cbn [SetDefaultMediumSpec DefaultMediumSpec].
    destruct (negb (FMediumSpecId_IsValid SpecId)); [discriminate|].
    destruct (MediumSpecMap _ !! MediumSpecId_Id SpecId) as [[F|]|]; discriminate.
Qed.

(** X23.  A [Flush] made directly after a [Flush] launches no task and
    changes nothing, whether the first one launched a task or not. *)
Theorem Flush_twice_launches_nothing :
  forall (s : UFileDeltaStore),
    Flush (fst (Flush s)) = (fst (Flush s), None).
Proof.
  intros s. unfold Flush at 2 3.
  destruct (negb (bIsInitialized s) || (size (DirtyCells s) =? 0)%nat) eqn:H; cbn [fst].
  - unfold Flush. rewrite H. reflexivity.
  - unfold Flush. cbn [bIsInitialized DirtyCells]. rewrite size_empty, orb_true_r.
    reflexivity.
Qed.

(** X24.  [Deinitialize] forgets everything: afterwards no identifier
    resolves from the runtime registries (each resolves to the fallback), the
    DataAsset lookups return [nullptr], the listings are empty, no volume is
    found at any location and the medium there is [None], and no biome is
    registered. *)
Theorem Deinitialize_forgets_everything :
  forall (s : USurfaceQuerySubsystem) (e : UEnvironmentSubsystemVolumes) (b : UBiomeSubsystem),
    (forall Id OutSpec PhysMat,
        ResolveSurfaceSpec (USurfaceQuerySubsystem_Deinitialize s) Id OutSpec
        = (false, FallbackSurfaceSpec)
        /\ GetSurfaceSpecForMaterial (USurfaceQuerySubsystem_Deinitialize s) PhysMat = nullptr
        /\ GetAllRuntimeSpecIds (USurfaceQuerySubsystem_Deinitialize s) = [])
    /\ (forall Id OutSpec Objects Inside,
          ResolveMediumSpec (EnvironmentSpecs (UEnvironmentSubsystem_Deinitialize e)) Id OutSpec
          = (false, FallbackMediumSpec)
          /\ GetMediumSpec (EnvironmentSpecs (UEnvironmentSubsystem_Deinitialize e)) Id = nullptr
          /\ FindVolumeAtLocation Objects Inside (UEnvironmentSubsystem_Deinitialize e) = 0%N
          /\ GetMediumAtLocation Objects Inside (UEnvironmentSubsystem_Deinitialize e)
             = mkMediumSpecId NAME_None)
    /\ (forall Id,
          GetBiomeSpec (UBiomeSubsystem_Deinitialize b) Id = None
          /\ GetAllBiomeIds (UBiomeSubsystem_Deinitialize b) = []
          /\ DefaultBiomeId (UBiomeSubsystem_Deinitialize b) = mkBiomeId NAME_None).
Proof.
  intros s e b. split; [|split].
  - intros Id Out PhysMat. split; [|split].
    + unfold ResolveSurfaceSpec, USurfaceQuerySubsystem_Deinitialize.
      cbn [RuntimeSurfaceSpecs]. rewrite lookup_empty. reflexivity.
    + unfold GetSurfaceSpecForMaterial, USurfaceQuerySubsystem_Deinitialize.
      cbn [SurfaceSpecMap DefaultSurfaceSpec]. rewrite lookup_empty.
      destruct (N.eqb PhysMat 0); reflexivity.
    + unfold GetAllRuntimeSpecIds, USurfaceQuerySubsystem_Deinitialize.
      cbn [RuntimeSurfaceSpecs]. rewrite map_to_list_empty. reflexivity.
  - intros Id Out Objects Inside. split; [|split; [|split]].
    + unfold ResolveMediumSpec, UEnvironmentSubsystem_Deinitialize.
      cbn [EnvironmentSpecs RuntimeMediumSpecs]. rewrite lookup_empty. reflexivity.
    + unfold GetMediumSpec, UEnvironmentSubsystem_Deinitialize.
      cbn [EnvironmentSpecs MediumSpecMap DefaultMediumSpec]. rewrite lookup_empty.
      destruct (negb (FMediumSpecId_IsValid Id)); reflexivity.
    + reflexivity.
    + reflexivity.
  - intros Id. split; [|split].
    + unfold GetBiomeSpec, UBiomeSubsystem_Deinitialize. cbn [BiomeSpecs].
      rewrite lookup_empty. destruct (negb (FBiomeId_IsValid Id)); reflexivity.
    + unfold GetAllBiomeIds, UBiomeSubsystem_Deinitialize. cbn [BiomeSpecs].
      rewrite map_to_list_empty. reflexivity.
    + reflexivity.
Qed.
